(** * Order service (server.js): a shallow embedding and its properties

    The service is one Express application over two MongoDB collections
    ([products], [orders]) and an Azure Service Bus sender.  The handlers
    are embedded as computations in a state-and-exception monad over a
    [World] that holds the two collections, the module-level [sbSender],
    the queue contents and the console.

    Modelling choices, all of them on the side of the source:
    - a JavaScript [Number] is an exact rational ([Q]); comparisons,
      products and sums are the exact ones;
    - an [ObjectId] is its string form, the 24 lower-case hexadecimal
      digits the driver prints; a string that is not of this form is not
      cast to an [ObjectId] ([isObjectId]).  The driver reads upper-case
      digits as the same id (and older ones read 12-character strings);
      requests are taken not to spell ids that way, and where a theorem
      says that a cast fails it asks for a string no driver reads
      ([malformed_id]);
    - the fields of an entry of [items] and of a stored document have,
      when present, the types the schemas give them; a field that is
      [undefined] or [null] is [None]; an entry of [items] that is [null]
      is kept apart ([ItemsArrayNull]), and so is a [status] that is not
      a string ([patch_order_json]);
    - [toUpperCase] is the one of ASCII text, and what is proved of the
      upper-case form of a status that the handler turns down is proved
      of ASCII text ([is_ascii_text]);
    - the theorems use of the arithmetic of [Q] only what the arithmetic
      of doubles has as well: the totals and the stocks are stated in the
      order the handler computes them, and no sum is re-associated;
    - every call into the MongoDB driver or the Service Bus SDK may
      reject: the world carries, call by call, whether the next one does
      ([dbFaults], [sbFaults]; an exhausted schedule means no fault);
    - the [_id] generated by [new Order(..)] and the clock read by the
      [timestamps] option are inputs of a request ([Env]);
    - requests run one at a time, and the promise of the publisher, which
      the handler does not await, runs to its end where it is created. *)

From Stdlib Require Import QArith Qround.
From stdpp Require Import gmap strings list fin_maps sorting.

Local Open Scope string_scope.
Local Open Scope list_scope.

(** ** Data model *)

Abbreviation ObjectId := string.
Abbreviation Number := Q.
Abbreviation Timestamp := Z.

(** [productSchema]; the document's [_id] is its key in the collection. *)
Module Product.
Record t := mk {
  name : string;
  category : option string;
  price : Number;
  stock : Number;
}.
Definition set_stock (s : Number) (p : t) : t :=
  {| name := name p; category := category p; price := price p; stock := s |}.
End Product.

(** [orderItemSchema]. *)
Module OrderItem.
Record t := mk {
  productId : ObjectId;
  name : string;
  price : Number;
  quantity : Number;
}.
End OrderItem.

(** [orderSchema]; [createdAt] and [updatedAt] come from [timestamps: true]
    and are absent until the document is saved. *)
Module Order.
Record t := mk {
  _id : ObjectId;
  status : string;
  items : list OrderItem.t;
  totalAmount : Number;
  createdAt : option Timestamp;
  updatedAt : option Timestamp;
}.
End Order.

(** One entry of [req.body.items] that is not [null]. *)
Module ReqItem.
Record t := mk {
  productId : option ObjectId;
  quantity : option Number;
}.
End ReqItem.

(** [req.body.items]: anything but an array ([undefined] included); an
    array without a [null] entry; or an array with one, of which the
    entries before the first [null] are given (the handler reads no
    further).  An entry that is neither an object nor [null] has no
    [productId] and no [quantity], like the object without them. *)
Inductive ItemsField :=
| NotAnArray
| ItemsArray (l : list ReqItem.t)
| ItemsArrayNull (before : list ReqItem.t).

(** The body of [POST /api/orders]: the [items] field and, by name and raw
    text, whatever other fields the client sent ([status], [totalAmount],
    [customerEmail], ...). *)
Module PostBody.
Record t := mk {
  items : ItemsField;
  otherFields : list (string * string);
}.
End PostBody.

(** What [res.status(..).json(..)] sends. *)
Inductive Body :=
| ErrorBody (error : string)
| OrderBody (order : Order.t).

Module Response.
Record t := mk {
  status : nat;
  body : Body;
}.
End Response.

(** The message handed to [sbSender.sendMessages]. *)
Module Payload.
Record t := mk {
  orderId : ObjectId;
  customerEmail : option string;
  items : list OrderItem.t;
  totalAmount : Number;
  status : string;
  createdAt : Timestamp;
}.
End Payload.

Record Sender := { queueName : string }.

Inductive Level := LOG | WARN | ERROR.

Inductive Exn :=
| DbError (message : string)
| ValidationError (message : string)
| SbError (message : string)
| CastError (message : string)
| TypeError (message : string).

Definition message_of (e : Exn) : string :=
  match e with
  | DbError m | ValidationError m | SbError m | CastError m | TypeError m => m
  end.

(** ** The world *)

Record World := mkWorld {
  products : gmap ObjectId Product.t;
  orders : list Order.t;
  sbSender : option Sender;
  sent : list Payload.t;
  console : list (Level * list string);
  dbFaults : list bool;
  sbFaults : list bool;
}.

Definition set_products (f : gmap ObjectId Product.t → gmap ObjectId Product.t)
    (w : World) : World :=
  mkWorld (f (products w)) (orders w) (sbSender w) (sent w) (console w)
          (dbFaults w) (sbFaults w).

Definition set_orders (f : list Order.t → list Order.t) (w : World) : World :=
  mkWorld (products w) (f (orders w)) (sbSender w) (sent w) (console w)
          (dbFaults w) (sbFaults w).

Definition set_sbSender (s : option Sender) (w : World) : World :=
  mkWorld (products w) (orders w) s (sent w) (console w)
          (dbFaults w) (sbFaults w).

Definition set_sent (f : list Payload.t → list Payload.t) (w : World) : World :=
  mkWorld (products w) (orders w) (sbSender w) (f (sent w)) (console w)
          (dbFaults w) (sbFaults w).

Definition set_console (f : list (Level * list string) → list (Level * list string))
    (w : World) : World :=
  mkWorld (products w) (orders w) (sbSender w) (sent w) (f (console w))
          (dbFaults w) (sbFaults w).

Definition set_dbFaults (fs : list bool) (w : World) : World :=
  mkWorld (products w) (orders w) (sbSender w) (sent w) (console w)
          fs (sbFaults w).

Definition set_sbFaults (fs : list bool) (w : World) : World :=
  mkWorld (products w) (orders w) (sbSender w) (sent w) (console w)
          (dbFaults w) fs.

(** ** ObjectIds *)

Definition is_hex_digit (c : Ascii.ascii) : bool :=
  let n := Ascii.N_of_ascii c in
  (((48 <=? n) && (n <=? 57)) || ((97 <=? n) && (n <=? 102)))%N.


(** The string is the printed form of an [ObjectId]. *)
Definition isObjectId (s : string) : bool :=
  Nat.eqb (String.length s) 24 && forallb is_hex_digit (String.list_ascii_of_string s).


(** What one request takes from outside: the fresh [_id], which is an
    [ObjectId], and the clock. *)
Record Env := {
  newId : ObjectId;
  now : Timestamp;
  newId_ok : isObjectId newId = true;
}.

(** ** The monad: state and exceptions *)

Inductive completion (A : Type) :=
| Normal (a : A)
| Throw (e : Exn).
Arguments Normal {A} a.
Arguments Throw {A} e.

Definition M (A : Type) : Type := World → completion A * World.

Definition ret {A} (a : A) : M A := fun w => (Normal a, w).

Definition throw {A} (e : Exn) : M A := fun w => (Throw e, w).

Definition bind {A B} (m : M A) (f : A → M B) : M B :=
  fun w =>
    match m w with
    | (Normal a, w') => f a w'
    | (Throw e, w') => (Throw e, w')
    end.

(** [try { m } catch (err) { h err }] *)
Definition try_catch {A} (m : M A) (h : Exn → M A) : M A :=
  fun w =>
    match m w with
    | (Normal a, w') => (Normal a, w')
    | (Throw e, w') => h e w'
    end.

Declare Scope m_scope.
Delimit Scope m_scope with M.
Notation "x <- m ;; k" := (bind m (fun x => k))
  (at level 100, m at next level, right associativity) : m_scope.
Notation "m ;; k" := (bind m (fun _ => k))
  (at level 100, right associativity) : m_scope.
Local Open Scope m_scope.

Definition console_write (lvl : Level) (args : list string) : M unit :=
  fun w => (Normal tt, set_console (fun c => (c ++ [(lvl, args)])%list) w).

(** One call into the MongoDB driver: it rejects when the schedule says so. *)
Definition db_call : M unit :=
  fun w =>
    match dbFaults w with
    | [] => (Normal tt, w)
    | false :: fs => (Normal tt, set_dbFaults fs w)
    | true :: fs => (Throw (DbError "database operation failed"), set_dbFaults fs w)
    end.

(** ** JavaScript primitives at the types used *)

(** [a <= b] and [a < b] on numbers. *)
Definition num_le (a b : Number) : bool := Qle_bool a b.
Definition num_lt (a b : Number) : bool := negb (Qle_bool b a).

(** [!s] for a string, [!n] for a number. *)
Definition falsy_string (s : string) : bool := String.eqb s "".
Definition falsy_number (n : Number) : bool := Qeq_bool n 0.

(** [String.prototype.toUpperCase] on ASCII text. *)
Definition upper_ascii (c : Ascii.ascii) : Ascii.ascii :=
  let n := Ascii.N_of_ascii c in
  if ((97 <=? n) && (n <=? 122))%N then Ascii.ascii_of_N (n - 32) else c.

Fixpoint toUpperCase (s : string) : string :=
  match s with
  | EmptyString => EmptyString
  | String c r => String (upper_ascii c) (toUpperCase r)
  end.

(** [Array.prototype.includes] on an array of strings. *)
Definition includes (l : list string) (s : string) : bool :=
  existsb (String.eqb s) l.

Definition gets {A} (f : World → A) : M A := fun w => (Normal (f w), w).

Definition modify (f : World → World) : M unit := fun w => (Normal tt, f w).

(** ** The Mongoose models *)

Definition allowedStatuses : list string := ["PENDING"; "COMPLETED"; "CANCELLED"].

(** Validation of an [orderItemSchema] subdocument: [name] is a required
    string (Mongoose rejects the empty one), [quantity] has [min: 1]. *)
Definition orderItem_valid (i : OrderItem.t) : bool :=
  negb (falsy_string (OrderItem.name i)) && num_le 1 (OrderItem.quantity i).

(** Validation of an [orderSchema] document: [status] is in the enum,
    [items] passes [Array.isArray(v) && v.length > 0] and each of its
    subdocuments is valid. *)
Definition order_valid (o : Order.t) : bool :=
  includes allowedStatuses (Order.status o)
  && negb (Nat.eqb (length (Order.items o)) 0)
  && forallb orderItem_valid (Order.items o).

(** [new Order({ status, items, totalAmount })] *)
Definition new_Order (env : Env) (status : string) (items : list OrderItem.t)
    (totalAmount : Number) : Order.t :=
  Order.mk (newId env) status items totalAmount None None.

(** [doc.save()]: validate, stamp, insert. *)
Definition Order_save (env : Env) (o : Order.t) : M Order.t :=
  if order_valid o then
    db_call ;;
    let saved := Order.mk (Order._id o) (Order.status o) (Order.items o)
                   (Order.totalAmount o) (Some (now env)) (Some (now env)) in
    modify (set_orders (fun os => (os ++ [saved])%list)) ;;
    ret saved
  else throw (ValidationError "Order validation failed").

(** The [CastError] of a query whose [_id] is not an [ObjectId]; it is
    thrown before the database is called. *)
Definition cast_failed : Exn :=
  CastError "Cast to ObjectId failed".

(** [Product.findById(productId)] *)
Definition Product_findById (productId : string) : M (option Product.t) :=
  if isObjectId productId then
    db_call ;;
    gets (fun w => products w !! productId)
  else throw cast_failed.

(** [Product.updateOne({ _id }, { $inc: { stock: delta } })]; a filter
    that matches nothing updates nothing. *)
Definition Product_updateOne (productId : ObjectId) (delta : Number) : M unit :=
  db_call ;;
  modify (set_products
            (alter (fun p => Product.set_stock (Product.stock p + delta)%Q p) productId)).

Definition Order_find (id : ObjectId) (os : list Order.t) : option Order.t :=
  List.find (fun o => String.eqb (Order._id o) id) os.

(** [Order.findById(id)] *)
Definition Order_findById (id : string) : M (option Order.t) :=
  if isObjectId id then
    db_call ;;
    gets (fun w => Order_find id (orders w))
  else throw cast_failed.

Fixpoint update_first (id : ObjectId) (f : Order.t → Order.t) (os : list Order.t)
    : list Order.t :=
  match os with
  | [] => []
  | o :: rest =>
      if String.eqb (Order._id o) id then f o :: rest
      else o :: update_first id f rest
  end.

Definition set_status (env : Env) (status : string) (o : Order.t) : Order.t :=
  Order.mk (Order._id o) status (Order.items o) (Order.totalAmount o)
           (Order.createdAt o) (Some (now env)).

(** [Order.findByIdAndUpdate(id, { status }, { new: true })]; the
    [timestamps] option refreshes [updatedAt]. *)
Definition Order_findByIdAndUpdate (env : Env) (id : string) (status : string)
    : M (option Order.t) :=
  if isObjectId id then
    db_call ;;
    found <- gets (fun w => Order_find id (orders w)) ;;
    match found with
    | None => ret None
    | Some o =>
        modify (set_orders (update_first id (set_status env status))) ;;
        ret (Some (set_status env status o))
    end
  else throw cast_failed.

(** ** Azure Service Bus *)

(** [initServiceBus], run once at start-up; [sdkThrows] says whether the
    SDK constructors reject the configuration. *)
Definition initServiceBus (sbConnectionString sbQueueName : option string)
    (sdkThrows : bool) : M unit :=
  try_catch
    (match sbConnectionString, sbQueueName with
     | Some conn, Some queue =>
         if falsy_string conn || falsy_string queue then
           console_write WARN
             ["[ServiceBus] Missing SERVICE_BUS_CONNECTION_STRING or SERVICE_BUS_QUEUE_NAME. OrderCreated messages will NOT be sent."]
         else
           (if sdkThrows then throw (SbError "invalid connection string") else ret tt) ;;
           modify (set_sbSender (Some {| queueName := queue |})) ;;
           console_write LOG ["[ServiceBus] Connected and sender created for queue:"; queue]
     | _, _ =>
         console_write WARN
           ["[ServiceBus] Missing SERVICE_BUS_CONNECTION_STRING or SERVICE_BUS_QUEUE_NAME. OrderCreated messages will NOT be sent."]
     end)
    (fun err => console_write ERROR ["[ServiceBus] Failed to initialize:"; message_of err]).

(** [sbSender.sendMessages({ body, contentType })] *)
Definition sendMessages (s : Sender) (body : Payload.t) : M unit :=
  fun w =>
    match sbFaults w with
    | [] => (Normal tt, set_sent (fun q => (q ++ [body])%list) w)
    | false :: fs =>
        (Normal tt, set_sent (fun q => (q ++ [body])%list) (set_sbFaults fs w))
    | true :: fs => (Throw (SbError "send failed"), set_sbFaults fs w)
    end.

Definition payload_of (env : Env) (order : Order.t) : Payload.t :=
  {| Payload.orderId := Order._id order;
     Payload.customerEmail := None;
     Payload.items := Order.items order;
     Payload.totalAmount :=
       if falsy_number (Order.totalAmount order) then 0%Q else Order.totalAmount order;
     Payload.status := Order.status order;
     Payload.createdAt := default (now env) (Order.createdAt order) |}.

Definition sendOrderCreatedMessage (env : Env) (order : Order.t) : M unit :=
  try_catch
    (sender <- gets sbSender ;;
     match sender with
     | None =>
         console_write WARN ["[ServiceBus] Sender is not initialized. Skipping message send."]
     | Some s =>
         sendMessages s (payload_of env order) ;;
         console_write LOG ["[ServiceBus] OrderCreated message sent for order:"; Order._id order]
     end)
    (fun err =>
       console_write ERROR ["[ServiceBus] Failed to send OrderCreated message:"; message_of err]).

(** ** The handlers *)

Definition json (status : nat) (body : Body) : Response.t :=
  {| Response.status := status; Response.body := body |}.

(** The [for (const item of items)] loop of [POST /api/orders]: it either
    leaves the handler with a response ([inl]) or falls through with the
    resolved lines and the total ([inr]). *)
Fixpoint validate_items (items : list ReqItem.t) (orderItems : list OrderItem.t)
    (totalAmount : Number) : M (Response.t + list OrderItem.t * Number) :=
  match items with
  | [] => ret (inr (orderItems, totalAmount))
  | item :: rest =>
      match ReqItem.productId item, ReqItem.quantity item with
      | Some productId, Some quantity =>
          if falsy_string productId || falsy_number quantity || num_le quantity 0 then
            ret (inl (json 400 (ErrorBody "Each item needs productId and positive quantity.")))
          else
            product <- Product_findById productId ;;
            match product with
            | None =>
                ret (inl (json 400 (ErrorBody ("Product not found: " +:+ productId))))
            | Some product =>
                if num_lt (Product.stock product) quantity then
                  ret (inl (json 400
                         (ErrorBody ("Not enough stock for product: " +:+ Product.name product))))
                else
                  let lineTotal := (Product.price product * quantity)%Q in
                  validate_items rest
                    (orderItems ++ [OrderItem.mk productId (Product.name product)
                                      (Product.price product) quantity])%list
                    (totalAmount + lineTotal)%Q
            end
      | _, _ =>
          ret (inl (json 400 (ErrorBody "Each item needs productId and positive quantity.")))
      end
  end.

(** The second loop: [Product.updateOne(.., { $inc: { stock: -item.quantity } })]
    for each line, in order. *)
Fixpoint decrement_stock (orderItems : list OrderItem.t) : M unit :=
  match orderItems with
  | [] => ret tt
  | item :: rest =>
      Product_updateOne (OrderItem.productId item) (- OrderItem.quantity item)%Q ;;
      decrement_stock rest
  end.

(** The step [sendOrderCreatedMessage(savedOrder).catch(..)] of the
    handler: the promise is not awaited, its rejection is only logged. *)
Definition publish (env : Env) (savedOrder : Order.t) : M unit :=
  try_catch (sendOrderCreatedMessage env savedOrder)
    (fun err =>
       console_write ERROR
         ["[ServiceBus] Error in sendOrderCreatedMessage:"; message_of err]).

(** The handler past the first loop, from "Create order document" to
    [res.status(201).json(savedOrder)]. *)
Definition create_order (env : Env) (orderItems : list OrderItem.t)
    (totalAmount : Number) : M Response.t :=
  let newOrder := new_Order env "PENDING" orderItems totalAmount in
  savedOrder <- Order_save env newOrder ;;
  publish env savedOrder ;;
  decrement_stock orderItems ;;
  ret (json 201 (OrderBody savedOrder)).

(** The [TypeError] of [const { productId, quantity } = item] on a [null]
    entry. *)
Definition null_entry : Exn :=
  TypeError "Cannot destructure property productId of item as it is null.".

(** The [catch (err)] block of the handler. *)
Definition creation_failed (err : Exn) : M Response.t :=
  console_write ERROR ["[Order-Service] Error creating order:"; message_of err] ;;
  ret (json 500 (ErrorBody "Failed to create order.")).

(** [app.post("/api/orders", ..)] *)
Definition post_orders (env : Env) (reqBody : PostBody.t) : M Response.t :=
  try_catch
    (match PostBody.items reqBody with
     | NotAnArray | ItemsArray [] =>
         ret (json 400 (ErrorBody "Order must contain at least one item."))
     | ItemsArray items =>
         validated <- validate_items items [] 0%Q ;;
         match validated with
         | inl response => ret response
         | inr (orderItems, totalAmount) => create_order env orderItems totalAmount
         end
     | ItemsArrayNull before =>
         validated <- validate_items before [] 0%Q ;;
         match validated with
         | inl response => ret response
         | inr _ => throw null_entry
         end
     end)
    creation_failed.

(** [app.get("/api/orders/:id", ..)] *)
Definition get_order (id : ObjectId) : M Response.t :=
  try_catch
    (order <- Order_findById id ;;
     match order with
     | None => ret (json 404 (ErrorBody "Order not found."))
     | Some o => ret (json 200 (OrderBody o))
     end)
    (fun err =>
       console_write ERROR ["[Order-Service] Error fetching order:"; message_of err] ;;
       ret (json 500 (ErrorBody "Failed to fetch order."))).

(** [!status || !allowedStatuses.includes(status.toUpperCase())] *)
Definition invalid_status (status : option string) : bool :=
  match status with
  | None => true
  | Some s => falsy_string s || negb (includes allowedStatuses (toUpperCase s))
  end.

(** [app.patch("/api/orders/:id", ..)] for a [status] that is missing or a
    string; the status check comes before the [try] and before any access
    to the store. *)
Definition patch_order (env : Env) (id : ObjectId) (status : option string)
    : M Response.t :=
  if invalid_status status then
    ret (json 400 (ErrorBody "Invalid status. Allowed values: PENDING, COMPLETED, CANCELLED."))
  else
    try_catch
      (updatedOrder <-
         Order_findByIdAndUpdate env id (toUpperCase (default "" status)) ;;
       match updatedOrder with
       | None => ret (json 404 (ErrorBody "Order not found."))
       | Some o => ret (json 200 (OrderBody o))
       end)
      (fun err =>
         console_write ERROR ["[Order-Service] Error updating order:"; message_of err] ;;
         ret (json 500 (ErrorBody "Failed to update order."))).






(** ** Reading the request against the catalog *)

(** An entry the first loop lets through: it names a product by an
    [ObjectId], asks for a positive quantity, the product is in the
    catalog and has the stock. *)
Definition entry_ok (catalog : gmap ObjectId Product.t) (item : ReqItem.t) : bool :=
  match ReqItem.productId item, ReqItem.quantity item with
  | Some productId, Some quantity =>
      negb (falsy_string productId) && negb (num_le quantity 0) &&
      isObjectId productId &&
      match catalog !! productId with
      | Some product => num_le quantity (Product.stock product)
      | None => false
      end
  | _, _ => false
  end.

(** The order line of an entry: name and price as the catalog has them. *)
Definition snapshot (catalog : gmap ObjectId Product.t) (item : ReqItem.t)
    : option OrderItem.t :=
  match ReqItem.productId item, ReqItem.quantity item with
  | Some productId, Some quantity =>
      match catalog !! productId with
      | Some product =>
          Some (OrderItem.mk productId (Product.name product) (Product.price product) quantity)
      | None => None
      end
  | _, _ => None
  end.

Definition line_total (l : OrderItem.t) : Number :=
  (OrderItem.price l * OrderItem.quantity l)%Q.

(** The running total of the loop, started at [acc]. *)
Definition running_total (acc : Number) (lines : list OrderItem.t) : Number :=
  fold_left (fun t l => (t + line_total l)%Q) lines acc.

(** The effect of one step of the second loop on the catalog, and of the
    loop over a sequence of lines. *)
Definition decrement (catalog : gmap ObjectId Product.t) (l : OrderItem.t)
    : gmap ObjectId Product.t :=
  alter (fun p => Product.set_stock (Product.stock p + - OrderItem.quantity l)%Q p)
        (OrderItem.productId l) catalog.

Definition apply_decrements (lines : list OrderItem.t)
    (catalog : gmap ObjectId Product.t) : gmap ObjectId Product.t :=
  fold_left decrement lines catalog.

(** The document [POST /api/orders] stores for the given lines. *)
Definition order_of (env : Env) (lines : list OrderItem.t) : Order.t :=
  Order.mk (newId env) "PENDING" lines (running_total 0 lines)
           (Some (now env)) (Some (now env)).

(** The next [n] calls into the database driver go through. *)
Definition db_ok_for (n : nat) (w : World) : bool :=
  forallb negb (take n (dbFaults w)).

(** No more than the fault schedule of the database differs. *)
Definition same_data (w w' : World) : Prop :=
  w' = set_dbFaults (dbFaults w') w.

(** Only the queue, the console and the fault schedule of the bus differ. *)
Definition same_store (w w' : World) : Prop :=
  products w' = products w ∧ orders w' = orders w ∧
  dbFaults w' = dbFaults w ∧ sbSender w' = sbSender w.

(** Two worlds that agree on what the database holds and on how it will
    answer; the publisher's side (sender, queue, bus faults) and the
    console are left free. *)
Definition same_database (w1 w2 : World) : Prop :=
  products w1 = products w2 ∧ orders w1 = orders w2 ∧ dbFaults w1 = dbFaults w2.

(** A computation whose result and whose effect on the database do not
    depend on the publisher's side. *)
Definition publisher_blind {A} (m : M A) : Prop :=
  ∀ w1 w2, same_database w1 w2 →
    (m w1).1 = (m w2).1 ∧ same_database (m w1).2 (m w2).2.

(** A number with no fractional part. *)
Definition is_integer (q : Number) : bool :=
  Qeq_bool (inject_Z (Qfloor q)) q.

(** Every line of every stored order has a quantity of at least one. *)
Definition quantities_ok (os : list Order.t) : bool :=
  forallb (fun o => forallb (fun l => num_le 1 (OrderItem.quantity l)) (Order.items o)) os.

(** ** The answers and console lines by name *)





(** The 400 of a status that is not allowed. *)
Definition status_rejected : Response.t :=
  json 400 (ErrorBody "Invalid status. Allowed values: PENDING, COMPLETED, CANCELLED.").

(** The 404 of an order id that does not resolve. *)
Definition order_not_found : Response.t :=
  json 404 (ErrorBody "Order not found.").

(** The warning of a publish call without a sender. *)
Definition sender_missing : Level * list string :=
  (WARN, ["[ServiceBus] Sender is not initialized. Skipping message send."]).

(** The error line of a publish call whose send was rejected. *)
Definition send_failed (message : string) : Level * list string :=
  (ERROR, ["[ServiceBus] Failed to send OrderCreated message:"; message]).

(** ** A small shop

    One product, "Widget", at 10.00 with 5 in stock, under the id [P];
    no orders yet, no Service Bus configured, a database that answers. *)

Definition P : ObjectId := "64f1c0de5eedbead0a11fa57".

Definition o1 : ObjectId := "650000000000000000000001".

Definition o2 : ObjectId := "650000000000000000000002".


Definition widget : Product.t := Product.mk "Widget" None 10 5.

Definition shop : World :=
  mkWorld {[ P := widget ]} [] None [] [] [] [].

Definition env1 : Env := {| newId := o1; now := 1000%Z; newId_ok := eq_refl |}.

Definition env2 : Env := {| newId := o2; now := 2000%Z; newId_ok := eq_refl |}.

Definition entry (productId : ObjectId) (quantity : Number) : ReqItem.t :=
  ReqItem.mk (Some productId) (Some quantity).

Definition request (items : list ReqItem.t) : PostBody.t :=
  PostBody.mk (ItemsArray items) [].

(** The order for three widgets, and the shop once it has been placed. *)
Definition first_order : Order.t :=
  order_of env1 [OrderItem.mk P "Widget" 10 3].

Definition shop_after_order : World :=
  (post_orders env1 (request [entry P 3]) shop).2.

(** ** Listing the orders *)

(** What [GET /api/orders] sends: the error object or the array. *)
Inductive ListBody :=
| ListError (error : string)
| OrdersBody (orders : list Order.t).

Module ListResponse.
Record t := mk {
  status : nat;
  body : ListBody;
}.
End ListResponse.

(** [a <= b] on [createdAt] values; a missing one sorts below every date. *)
Definition stamp_le (a b : option Timestamp) : bool :=
  match a, b with
  | None, _ => true
  | Some _, None => false
  | Some x, Some y => (x <=? y)%Z
  end.

(** The order of [sort({ createdAt: -1 })]: [o1] may come before [o2]. *)
Definition newest_first (o1 o2 : Order.t) : Prop :=
  stamp_le (Order.createdAt o2) (Order.createdAt o1) = true.

#[global] Instance newest_first_dec : RelDecision newest_first.
Proof. intros o1 o2. unfold newest_first. apply _. Defined.

(** [Order.find().sort({ createdAt: -1 }).limit(50)]; documents with the
    same [createdAt] come in the order the sort leaves them. *)
Definition Order_find_recent : M (list Order.t) :=
  db_call ;;
  gets (fun w => take 50 (merge_sort newest_first (orders w))).

(** [app.get("/api/orders", ..)] *)
Definition get_orders : M ListResponse.t :=
  try_catch
    (orders <- Order_find_recent ;;
     ret (ListResponse.mk 200 (OrdersBody orders)))
    (fun err =>
       console_write ERROR ["[Order-Service] Error fetching orders:"; message_of err] ;;
       ret (ListResponse.mk 500 (ListError "Failed to fetch orders."))).

(** ** Further readings of the state *)

(** The stock [s] of the product [pid] once the second loop has gone over
    the lines. *)
Definition stock_after (pid : ObjectId) (lines : list OrderItem.t) (s : Number) : Number :=
  fold_left
    (fun s l =>
       if String.eqb (OrderItem.productId l) pid then (s + - OrderItem.quantity l)%Q else s)
    lines s.

(** Every stored order has one of the three statuses. *)
Definition statuses_ok (os : list Order.t) : bool :=
  forallb (fun o => includes allowedStatuses (Order.status o)) os.

(** Every stored order has a line, and its [totalAmount] is what the
    accumulation of the handler gives over its stored lines. *)
Definition totals_ok (os : list Order.t) : Prop :=
  Forall (fun o => Order.items o ≠ [] ∧
                   Order.totalAmount o = running_total 0 (Order.items o)) os.

(** The publisher's side of the world is as it was. *)
Definition same_bus (w w' : World) : Prop :=
  sent w' = sent w ∧ sbSender w' = sbSender w ∧ sbFaults w' = sbFaults w.

(** The 500 of the place-order handler. *)
Definition creation_error : Response.t :=
  json 500 (ErrorBody "Failed to create order.").

(** A shop whose Service Bus sender exists. *)
Definition shop_with_bus : World :=
  set_sbSender (Some {| queueName := "orders" |}) shop.

(** ** Basic facts *)

Lemma world_eta (w : World) : set_dbFaults (dbFaults w) w = w.
Proof. by destruct w. Qed.

Lemma same_data_refl w : same_data w w.
Proof. unfold same_data. by rewrite world_eta. Qed.

Lemma same_data_set fs w : same_data w (set_dbFaults fs w).
Proof. reflexivity. Qed.

Lemma same_data_trans w1 w2 w3 : same_data w1 w2 → same_data w2 w3 → same_data w1 w3.
Proof. unfold same_data. intros H1 H2. rewrite H2, H1. reflexivity. Qed.

Lemma same_data_products w w' : same_data w w' → products w' = products w.
Proof. unfold same_data. by intros ->. Qed.

Lemma same_data_orders w w' : same_data w w' → orders w' = orders w.
Proof. unfold same_data. by intros ->. Qed.

Lemma db_call_same_data w r w' : db_call w = (r, w') → same_data w w'.
Proof.
  unfold db_call. destruct (dbFaults w) as [|[] fs] eqn:E; intros [= <- <-];
    auto using same_data_refl, same_data_set.
Qed.

Lemma db_call_ok w :
  db_ok_for 1 w = true →
  db_call w = (Normal tt, set_dbFaults (drop 1 (dbFaults w)) w).
Proof.
  unfold db_ok_for, db_call. destruct (dbFaults w) as [|[] fs] eqn:E; simpl.
  - intros _. by rewrite <- E, world_eta.
  - discriminate.
  - by rewrite drop_0.
Qed.

Lemma db_ok_for_S n w :
  db_ok_for (S n) w = true →
  db_ok_for 1 w = true ∧ db_ok_for n (set_dbFaults (drop 1 (dbFaults w)) w) = true.
Proof.
  unfold db_ok_for. simpl. destruct (dbFaults w) as [|b fs]; simpl.
  - by rewrite take_nil.
  - rewrite drop_0. destruct b; simpl; [discriminate|]. auto.
Qed.


Lemma falsy_number_le q : falsy_number q = true → num_le q 0 = true.
Proof.
  unfold falsy_number, num_le. intros H%Qeq_bool_iff.
  apply Qle_bool_iff. rewrite H. apply Qle_refl.
Qed.

Lemma quantity_check q :
  falsy_number q || num_le q 0 = num_le q 0.
Proof.
  destruct (falsy_number q) eqn:E; [|done].
  by rewrite (falsy_number_le _ E).
Qed.

(** ** The validation loop *)

Ltac unfold_m :=
  unfold Product_findById, Product_updateOne, Order_findById,
    bind, ret, gets, modify, throw, try_catch, console_write in *.

(** The loop reads the catalog and writes nothing. *)
Lemma validate_items_same_data items : ∀ orderItems totalAmount w r w',
  validate_items items orderItems totalAmount w = (r, w') → same_data w w'.
Proof.
  induction items as [|item rest IH]; intros acc tot w r w'; simpl.
  - unfold ret. intros [= <- <-]. apply same_data_refl.
  - destruct (ReqItem.productId item) as [pid|], (ReqItem.quantity item) as [q|];
      try (unfold ret; intros [= <- <-]; apply same_data_refl).
    destruct (falsy_string pid || falsy_number q || num_le q 0).
    { unfold ret. intros [= <- <-]. apply same_data_refl. }
    unfold_m. destruct (isObjectId pid).
    2:{ intros [= <- <-]. apply same_data_refl. }
    destruct (db_call w) as [[[]|e] w1] eqn:Hdb.
    2:{ intros [= <- <-]. eauto using db_call_same_data. }
    apply db_call_same_data in Hdb.
    destruct (products w1 !! pid) as [p|].
    2:{ by intros [= <- <-]. }
    destruct (num_lt (Product.stock p) q).
    { by intros [= <- <-]. }
    intros H. apply IH in H. eauto using same_data_trans.
Qed.

(** When the loop falls through, every entry was acceptable, the lines are
    the snapshots of the entries in order, and the total is the running
    total over them. *)
Lemma validate_items_inr items : ∀ orderItems totalAmount w lines total w',
  validate_items items orderItems totalAmount w = (Normal (inr (lines, total)), w') →
  ∃ new,
    Forall2 (λ it l, snapshot (products w) it = Some l) items new ∧
    forallb (entry_ok (products w)) items = true ∧
    lines = orderItems ++ new ∧
    total = running_total totalAmount new.
Proof.
  induction items as [|item rest IH]; intros acc tot w lines total w'; simpl.
  - unfold ret. intros [= <- <-]. exists []. by rewrite app_nil_r.
  - destruct item as [[pid|] [q|]]; simpl; try (unfold ret; discriminate).
    rewrite <- orb_assoc, quantity_check.
    destruct (falsy_string pid) eqn:Hpid; simpl; [unfold ret; discriminate|].
    destruct (num_le q 0) eqn:Hq; simpl; [unfold ret; discriminate|].
    unfold_m. destruct (isObjectId pid) eqn:Hoid; [|discriminate].
    destruct (db_call w) as [[[]|e] w1] eqn:Hdb; [|discriminate].
    apply db_call_same_data, same_data_products in Hdb. rewrite Hdb.
    destruct (products w !! pid) as [p|] eqn:Hp; [|discriminate].
    unfold num_lt. destruct (Qle_bool q (Product.stock p)) eqn:Hs; simpl; [|discriminate].
    intros H. apply IH in H as (new & Hnew & Hok & -> & ->).
    rewrite Hdb in Hnew, Hok.
    exists (OrderItem.mk pid (Product.name p) (Product.price p) q :: new).
    split; [|split; [|split]].
    + constructor; [|done]. unfold snapshot. simpl. by rewrite Hp.
    + unfold entry_ok at 1. simpl. rewrite Hpid, Hq, Hoid, Hp. unfold num_le. by rewrite Hs.
    + by rewrite <- app_assoc.
    + reflexivity.
Qed.

Lemma omap_cons_Some {A B} (f : A → option B) x l y :
  f x = Some y → omap f (x :: l) = y :: omap f l.
Proof. intros H. simpl. by rewrite H. Qed.

(** Acceptable entries, with a database that answers, carry the loop on
    to the entries after them. *)
Lemma validate_items_app pre : ∀ rest orderItems totalAmount w,
  db_ok_for (length pre) w = true →
  forallb (entry_ok (products w)) pre = true →
  validate_items (pre ++ rest) orderItems totalAmount w =
  validate_items rest
    (orderItems ++ omap (snapshot (products w)) pre)
    (running_total totalAmount (omap (snapshot (products w)) pre))
    (set_dbFaults (drop (length pre) (dbFaults w)) w).
Proof.
  induction pre as [|item pre IH]; intros rest acc tot w Hdb Hok.
  - simpl. by rewrite app_nil_r, drop_0, world_eta.
  - simpl in Hok. apply andb_true_iff in Hok as [Hitem Hrest].
    unfold entry_ok in Hitem.
    destruct item as [[pid|] [q|]]; simpl in Hitem; try discriminate.
    destruct (falsy_string pid) eqn:Hpid; [discriminate|].
    destruct (num_le q 0) eqn:Hq; [discriminate|].
    destruct (isObjectId pid) eqn:Hoid; [|discriminate].
    destruct (products w !! pid) as [p|] eqn:Hp; [|discriminate].
    simpl in Hitem.
    rewrite !(omap_cons_Some _ _ _ (OrderItem.mk pid (Product.name p) (Product.price p) q))
      by (unfold snapshot; simpl; by rewrite Hp).
    apply db_ok_for_S in Hdb as [Hdb1 Hdbn].
    rewrite <- app_comm_cons.
    cbn [validate_items ReqItem.productId ReqItem.quantity].
    rewrite <- orb_assoc, quantity_check, Hpid, Hq. simpl.
    unfold_m. rewrite Hoid, (db_call_ok _ Hdb1). simpl. rewrite Hp.
    unfold num_lt. unfold num_le in Hitem. rewrite Hitem. simpl.
    rewrite IH; [|done|done]. simpl.
    rewrite drop_drop, <- app_assoc. reflexivity.
Qed.

(** In particular, when all entries are acceptable the loop falls through. *)
Lemma validate_items_ok items orderItems totalAmount w :
  db_ok_for (length items) w = true →
  forallb (entry_ok (products w)) items = true →
  validate_items items orderItems totalAmount w =
    (Normal (inr (orderItems ++ omap (snapshot (products w)) items,
                  running_total totalAmount (omap (snapshot (products w)) items))),
     set_dbFaults (drop (length items) (dbFaults w)) w).
Proof.
  intros Hdb Hok.
  rewrite <- (app_nil_r items) at 1. by rewrite validate_items_app.
Qed.

(** ** The publisher *)

Lemma sendMessages_same_store s body w r w' :
  sendMessages s body w = (r, w') → same_store w w'.
Proof.
  unfold sendMessages. destruct (sbFaults w) as [|[] fs]; intros [= <- <-]; by repeat split.
Qed.

Lemma sendOrderCreatedMessage_returns env order w :
  ∃ w', sendOrderCreatedMessage env order w = (Normal tt, w') ∧ same_store w w'.
Proof.
  unfold sendOrderCreatedMessage. unfold_m.
  destruct (sbSender w) as [s|] eqn:Hs.
  - destruct (sendMessages s (payload_of env order) w) as [[[]|e] w1] eqn:Hsend;
      apply sendMessages_same_store in Hsend as (?&?&?&?);
      eexists; (split; [reflexivity|]); by repeat split.
  - eexists; split; [reflexivity|]. by repeat split.
Qed.

Lemma publish_returns env order w :
  ∃ w', publish env order w = (Normal tt, w') ∧ same_store w w'.
Proof.
  unfold publish, try_catch.
  destruct (sendOrderCreatedMessage_returns env order w) as (w' & -> & H). eauto.
Qed.

(** ** The store *)

Lemma Order_save_inv env o w r w' :
  Order_save env o w = (r, w') →
  products w' = products w ∧
  ((∃ e, r = Throw e ∧ orders w' = orders w) ∨
   (order_valid o = true ∧
    r = Normal (Order.mk (Order._id o) (Order.status o) (Order.items o)
                  (Order.totalAmount o) (Some (now env)) (Some (now env))) ∧
    orders w' = orders w ++
      [Order.mk (Order._id o) (Order.status o) (Order.items o)
         (Order.totalAmount o) (Some (now env)) (Some (now env))] ∧
    db_ok_for 1 w = true ∧ dbFaults w' = drop 1 (dbFaults w))).
Proof.
  unfold Order_save. destruct (order_valid o).
  - unfold_m. unfold db_call, db_ok_for.
    destruct (dbFaults w) as [|[] fs] eqn:E; intros [= <- <-].
    + split; [done|]. right. by repeat split.
    + split; [done|]. left. by eexists.
    + split; [done|]. right. by repeat split.
  - unfold throw. intros [= <- <-]. split; [done|]. left. by eexists.
Qed.

Lemma Order_save_ok env o w :
  order_valid o = true → db_ok_for 1 w = true →
  Order_save env o w =
    (Normal (Order.mk (Order._id o) (Order.status o) (Order.items o)
                (Order.totalAmount o) (Some (now env)) (Some (now env))),
     set_orders (fun os => os ++
       [Order.mk (Order._id o) (Order.status o) (Order.items o)
          (Order.totalAmount o) (Some (now env)) (Some (now env))])
       (set_dbFaults (drop 1 (dbFaults w)) w)).
Proof.
  intros Hv Hdb. unfold Order_save. rewrite Hv. unfold_m.
  by rewrite (db_call_ok _ Hdb).
Qed.

(** The second loop: every outcome leaves the orders alone, and the
    catalog has taken the decrements of the lines handled so far. *)
Lemma decrement_stock_inv lines : ∀ w r w',
  decrement_stock lines w = (r, w') →
  orders w' = orders w ∧
  ((r = Normal tt ∧ products w' = apply_decrements lines (products w)) ∨
   (∃ e k, r = Throw e ∧ k < length lines ∧
           products w' = apply_decrements (take k lines) (products w))).
Proof.
  induction lines as [|l lines IH]; intros w r w'; simpl.
  - unfold ret. intros [= <- <-]. auto.
  - unfold_m. unfold db_call.
    destruct (dbFaults w) as [|[] fs] eqn:E; simpl.
    + intros H. apply IH in H as [Ho H]. simpl in *. split; [done|].
      destruct H as [[-> ->]|(e & k & -> & Hk & ->)]; [by left|right].
      exists e, (S k). split; [done|]. split; [lia|done].
    + intros [= <- <-]. split; [done|]. right.
      eexists _, 0. split; [done|]. split; [lia|done].
    + intros H. apply IH in H as [Ho H]. simpl in *. split; [done|].
      destruct H as [[-> ->]|(e & k & -> & Hk & ->)]; [by left|right].
      exists e, (S k). split; [done|]. split; [lia|done].
Qed.

(** The second loop when the database rejects its call number [k]. *)
Lemma decrement_stock_fails lines : ∀ k fs w,
  k < length lines →
  dbFaults w = replicate k false ++ true :: fs →
  ∃ e w', decrement_stock lines w = (Throw e, w') ∧
          orders w' = orders w ∧ dbFaults w' = fs ∧
          products w' = apply_decrements (take k lines) (products w).
Proof.
  induction lines as [|l lines IH]; intros k fs w Hk Hf; simpl in Hk; [lia|].
  simpl. unfold_m. unfold db_call. rewrite Hf.
  destruct k as [|k]; simpl.
  - eauto 10.
  - edestruct (IH k fs) as (e & w' & -> & Ho & Hd & Hp); [lia|reflexivity|].
    exists e, w'. simpl in *. eauto.
Qed.


(** ** The place-order handler, case by case *)

Lemma validate_items_inl items : ∀ orderItems totalAmount w response w',
  validate_items items orderItems totalAmount w = (Normal (inl response), w') →
  ∃ msg, response = json 400 (ErrorBody msg).
Proof.
  induction items as [|item rest IH]; intros acc tot w resp w'; simpl.
  - unfold ret. discriminate.
  - destruct item as [[pid|] [q|]]; simpl;
      try (unfold ret; intros [= <- <-]; by eexists).
    destruct (falsy_string pid || falsy_number q || num_le q 0).
    { unfold ret; intros [= <- <-]; by eexists. }
    unfold_m. destruct (isObjectId pid); [|discriminate].
    destruct (db_call w) as [[[]|e] w1]; [|discriminate].
    destruct (products w1 !! pid) as [p|].
    2:{ intros [= <- <-]; by eexists. }
    destruct (num_lt (Product.stock p) q).
    { intros [= <- <-]; by eexists. }
    apply IH.
Qed.

(** Every run of the handler answers, and in one of three ways: a 400 that
    leaves the data alone; a 500 before anything was stored; or the order
    was stored, and then either all decrements were applied and the answer
    is 201, or a decrement was rejected and the answer is 500. *)
Lemma post_orders_inv env reqBody w r w' :
  post_orders env reqBody w = (r, w') →
  (∃ msg, r = Normal (json 400 (ErrorBody msg)) ∧ same_data w w') ∨
  (r = Normal (json 500 (ErrorBody "Failed to create order.")) ∧
   products w' = products w ∧ orders w' = orders w) ∨
  (∃ items lines,
     PostBody.items reqBody = ItemsArray items ∧
     Forall2 (λ it l, snapshot (products w) it = Some l) items lines ∧
     forallb (entry_ok (products w)) items = true ∧
     order_valid (order_of env lines) = true ∧
     orders w' = orders w ++ [order_of env lines] ∧
     ((r = Normal (json 201 (OrderBody (order_of env lines))) ∧
       products w' = apply_decrements lines (products w)) ∨
      (r = Normal (json 500 (ErrorBody "Failed to create order.")) ∧
       ∃ k, k < length lines ∧
            products w' = apply_decrements (take k lines) (products w)))).
Proof.
  unfold post_orders, try_catch, creation_failed.
  destruct (PostBody.items reqBody) as [|items|before] eqn:Hitems.
  { unfold ret. intros [= <- <-]. left. eauto using same_data_refl. }
  2:{ (* an array with a null entry *)
      unfold bind at 1.
      destruct (validate_items before [] 0%Q w) as [[[resp|[lines total]]|e] w1] eqn:Hv;
        pose proof (validate_items_same_data _ _ _ _ _ _ Hv) as Hsame.
      - unfold ret. intros [= <- <-]. left.
        destruct (validate_items_inl _ _ _ _ _ _ Hv) as [msg ->]. eauto.
      - unfold_m. intros [= <- <-]. right; left. simpl.
        eauto using same_data_products, same_data_orders.
      - unfold_m. intros [= <- <-]. right; left. simpl.
        eauto using same_data_products, same_data_orders. }
  destruct items as [|item rest].
  { unfold ret. intros [= <- <-]. left. eauto using same_data_refl. }
  unfold bind at 1.
  destruct (validate_items (item :: rest) [] 0%Q w) as [[[resp|[lines total]]|e] w1] eqn:Hv.
  - (* the loop answered *)
    unfold ret. intros [= <- <-]. left.
    destruct (validate_items_inl _ _ _ _ _ _ Hv) as [msg ->].
    eauto using validate_items_same_data.
  - (* the loop fell through *)
    pose proof (validate_items_same_data _ _ _ _ _ _ Hv) as Hsame.
    apply validate_items_inr in Hv as (new & Hnew & Hok & -> & ->). simpl.
    unfold create_order. unfold bind at 1.
    destruct (Order_save env _ w1) as [[saved|e] w2] eqn:Hsave;
      apply Order_save_inv in Hsave as [Hp2 Hsave].
    2:{ destruct Hsave as [(? & _ & Ho2)|(_ & ? & _)]; [|discriminate].
        unfold_m. intros [= <- <-]. right; left. simpl.
        rewrite Hp2, Ho2.
        eauto using same_data_products, same_data_orders. }
    destruct Hsave as [(? & ? & _)|(Hvalid & Heq & Ho2 & _ & _)]; [discriminate|].
    change (Normal saved = Normal (order_of env new)) in Heq.
    change (orders w2 = orders w1 ++ [order_of env new]) in Ho2.
    change (order_valid (order_of env new) = true) in Hvalid.
    injection Heq as ->.
    unfold bind at 1.
    destruct (publish_returns env (order_of env new) w2) as (w3 & Hpub & Hp3 & Ho3 & _ & _).
    rewrite Hpub. unfold bind at 1.
    destruct (decrement_stock new w3) as [[[]|e] w4] eqn:Hdec;
      apply decrement_stock_inv in Hdec as [Ho4 Hdec].
    + destruct Hdec as [[_ Hp4]|(? & ? & ? & _)]; [|discriminate].
      unfold ret. intros [= <- <-]. right; right. exists (item :: rest), new.
      rewrite (same_data_products _ _ Hsame) in Hp2.
      rewrite (same_data_orders _ _ Hsame) in Ho2.
      repeat split; try done.
      * congruence.
      * left. split; [done|]. congruence.
    + destruct Hdec as [[? _]|(? & k & _ & Hk & Hp4)]; [discriminate|].
      unfold_m. intros [= <- <-]. right; right. exists (item :: rest), new.
      rewrite (same_data_products _ _ Hsame) in Hp2.
      rewrite (same_data_orders _ _ Hsame) in Ho2.
      repeat split; try done.
      * simpl. congruence.
      * right. split; [done|]. exists k. split; [done|]. simpl. congruence.
  - (* the loop threw *)
    unfold_m. intros [= <- <-]. right; left. simpl.
    apply validate_items_same_data in Hv.
    eauto using same_data_products, same_data_orders.
Qed.

(** ** Placing an order: totals and snapshots *)

Lemma post_orders_created env items other w lines total w1 :
  items ≠ [] →
  validate_items items [] 0%Q w = (Normal (inr (lines, total)), w1) →
  post_orders env (PostBody.mk (ItemsArray items) other) w =
  try_catch (create_order env lines total) creation_failed w1.
Proof.
  intros Hne Hv. unfold post_orders, try_catch, bind. simpl.
  destruct items as [|item rest]; [done|]. by rewrite Hv.
Qed.






(** ** Placing an order: a rejected request changes nothing *)

(** C3. A request the validation rejects (the answer is a 400: no item,
    bad quantity, unknown product, not enough stock) leaves the data as it
    was: no order is stored, no stock is changed, nothing is published. *)
Theorem rejected_order_changes_nothing env reqBody w response w' :
  post_orders env reqBody w = (Normal response, w') →
  Response.status response = 400 →
  products w' = products w ∧ orders w' = orders w ∧ sent w' = sent w.
Proof.
  intros Hrun Hst.
  apply post_orders_inv in Hrun
    as [(msg & _ & Hsame)|[([= ->] & _)|(items & lines & _ & _ & _ & _ & _ & Hr)]].
  - unfold same_data in Hsame. by rewrite Hsame.
  - discriminate.
  - destruct Hr as [([= ->] & _)|([= ->] & _)]; discriminate.
Qed.

(** A request whose second entry asks for more than the stock. *)
Lemma rejected_order_changes_nothing_witness :
  products (post_orders env1 (request [entry P 2; entry P 10]) shop).2 = products shop ∧
  orders (post_orders env1 (request [entry P 2; entry P 10]) shop).2 = orders shop ∧
  sent (post_orders env1 (request [entry P 2; entry P 10]) shop).2 = sent shop.
Proof.
  apply (rejected_order_changes_nothing env1 (request [entry P 2; entry P 10]) shop
           (json 400 (ErrorBody "Not enough stock for product: Widget"))).
  - vm_compute. reflexivity.
  - reflexivity.
Defined.

(** ** Placing an order: which request is rejected, and how *)

Lemma num_le_true a b : num_le a b = true ↔ (a <= b)%Q.
Proof. apply Qle_bool_iff. Qed.


Lemma falsy_string_false s : s ≠ "" → falsy_string s = false.
Proof. intros H. unfold falsy_string. by apply String.eqb_neq. Qed.









Lemma post_orders_thrown env items other w e w1 :
  items ≠ [] →
  validate_items items [] 0%Q w = (Throw e, w1) →
  post_orders env (PostBody.mk (ItemsArray items) other) w = creation_failed e w1.
Proof.
  intros Hne Hv. unfold post_orders, try_catch, bind. simpl.
  destruct items as [|item rest]; [done|]. by rewrite Hv.
Qed.




(** ** Placing an order: the stock afterwards *)

(** C4. Two lines for the same product pass the stock check one by one,
    each against the stock the catalog has before any decrement: with 5 in
    stock, a request for 3 and 3 again is answered 201 and leaves the stock
    at -1. *)
Theorem repeated_product_oversells :
  Product.stock <$> (products shop !! P) = Some 5%Q ∧
  (post_orders env1 (request [entry P 3; entry P 3]) shop).1 =
    Normal (json 201 (OrderBody (order_of env1
      [OrderItem.mk P "Widget" 10 3; OrderItem.mk P "Widget" 10 3]))) ∧
  Product.stock <$>
    (products (post_orders env1 (request [entry P 3; entry P 3]) shop).2 !! P) =
    Some (-1)%Q ∧
  (-1 < 0)%Q.
Proof. vm_compute. repeat split. Qed.

Lemma apply_decrements_single l catalog :
  apply_decrements [l] catalog = decrement catalog l.
Proof. reflexivity. Qed.

(** C5. After a successful placement (a 201) of a single line of quantity
    [q] for a product with stock [stock p], the product has stock
    [stock p - q] and is otherwise as it was.  In the shop (price 10.00,
    stock 5) a request for 3 is answered 201 with [totalAmount] 30 and
    status PENDING, and the stock is 2 afterwards. *)
Theorem single_line_stock :
  (∀ env other w pid q p response w',
     products w !! pid = Some p →
     post_orders env (PostBody.mk (ItemsArray [ReqItem.mk (Some pid) (Some q)]) other) w
       = (Normal response, w') →
     Response.status response = 201 →
     products w' !! pid = Some (Product.set_stock (Product.stock p - q)%Q p)) ∧
  (∃ order,
     (post_orders env1 (request [entry P 3]) shop).1 = Normal (json 201 (OrderBody order)) ∧
     Order.totalAmount order = 30%Q ∧
     Order.status order = "PENDING" ∧
     products (post_orders env1 (request [entry P 3]) shop).2 !! P =
       Some (Product.set_stock 2%Q widget)).
Proof.
  split.
  - intros env other w pid q p response w' Hp Hrun Hst.
    apply post_orders_inv in Hrun
      as [(msg & [= ->] & _)|[([= ->] & _)|(items & lines & Hi & Hl & _ & _ & _ & Hr)]];
      try discriminate.
    destruct Hr as [(_ & Hp')|([= ->] & _)]; [|discriminate].
    simpl in Hi. injection Hi as <-.
    apply Forall2_cons_inv_l in Hl as (l & rest & Hl & Hrest & ->).
    apply Forall2_nil_inv_l in Hrest as ->.
    unfold snapshot in Hl. simpl in Hl. rewrite Hp in Hl. injection Hl as <-.
    rewrite Hp', apply_decrements_single. unfold decrement. simpl.
    rewrite lookup_alter_eq, Hp. reflexivity.
  - eexists. vm_compute. repeat split.
Qed.

(** Three widgets out of five. *)
Lemma single_line_stock_witness :
  products (post_orders env1 (request [entry P 3]) shop).2 !! P =
    Some (Product.set_stock (Product.stock widget - 3)%Q widget).
Proof.
  destruct single_line_stock as [H _].
  apply (H env1 [] shop P 3%Q widget
           (json 201 (OrderBody (order_of env1 [OrderItem.mk P "Widget" 10 3])))).
  - reflexivity.
  - vm_compute. reflexivity.
  - reflexivity.
Defined.

(** ** Placing an order: a decrement the database rejects *)

Lemma db_ok_for_replicate n rest w :
  dbFaults w = replicate n false ++ rest →
  db_ok_for n w = true ∧ drop n (dbFaults w) = rest.
Proof.
  unfold db_ok_for. intros ->. split.
  - rewrite take_app_length' by (by rewrite length_replicate).
    induction n; [done|]. simpl. done.
  - by rewrite drop_app_length' by (by rewrite length_replicate).
Qed.

(** C6, where the code differs: the database answers the
    look-up and the insert and then rejects the first decrement; the order
    stays stored, the stock stays at 5, and the answer is the 500 of the
    [catch] block, not a 201. *)
Lemma rejected_decrement_is_not_201 :
  let run := post_orders env1 (request [entry P 3])
               (set_dbFaults [false; false; true] shop) in
  run.1 = Normal (json 500 (ErrorBody "Failed to create order.")) ∧
  run.1 ≠ Normal (json 201 (OrderBody (order_of env1 [OrderItem.mk P "Widget" 10 3]))) ∧
  orders run.2 = [order_of env1 [OrderItem.mk P "Widget" 10 3]] ∧
  products run.2 !! P = Some widget.
Proof. vm_compute. repeat split. discriminate. Qed.

(** C6, as the code has it.  Take a request that passes the first loop and
    the schema, and a database that answers the look-ups, the insert and
    the first [k] decrements and rejects the next one.  Then the order
    stays stored and the [k] decrements stay applied (nothing is rolled
    back), no further decrement is attempted, and the request fails: the
    answer is the 500 of the [catch] block with its generic message. *)
Theorem rejected_decrement_keeps_order env other w items k fs :
  forallb (entry_ok (products w)) items = true →
  forallb orderItem_valid (omap (snapshot (products w)) items) = true →
  k < length (omap (snapshot (products w)) items) →
  dbFaults w = replicate (length items) false ++ false :: replicate k false ++ true :: fs →
  ∃ w',
    post_orders env (PostBody.mk (ItemsArray items) other) w =
      (Normal (json 500 (ErrorBody "Failed to create order.")), w') ∧
    orders w' = orders w ++ [order_of env (omap (snapshot (products w)) items)] ∧
    products w' = apply_decrements (take k (omap (snapshot (products w)) items)) (products w) ∧
    dbFaults w' = fs.
Proof.
  set (lines := omap (snapshot (products w)) items).
  intros Hok Hvalid Hk Hf.
  apply db_ok_for_replicate in Hf as [Hdb Hdrop].
  assert (Hne : items ≠ []) by (intros ->; simpl in Hk; lia).
  erewrite post_orders_created; [|done|by apply validate_items_ok].
  fold lines. rewrite Hdrop. simpl app.
  set (w1 := set_dbFaults _ w).
  assert (Hnew : order_valid (new_Order env "PENDING" lines (running_total 0 lines)) = true).
  { unfold order_valid. simpl. rewrite Hvalid.
    destruct lines; [simpl in Hk; lia|done]. }
  unfold try_catch, create_order. unfold bind at 1.
  rewrite (Order_save_ok env _ w1 Hnew) by reflexivity.
  set (w2 := set_orders _ _). unfold bind at 1.
  destruct (publish_returns env (order_of env lines) w2) as (w3 & Hpub & Hp3 & Ho3 & Hd3 & _).
  change (Order.mk _ _ _ _ _ _) with (order_of env lines).
  rewrite Hpub. unfold bind at 1.
  destruct (decrement_stock_fails lines k fs w3 Hk) as (e & w4 & Hdec & Ho4 & Hd4 & Hp4).
  { rewrite Hd3. reflexivity. }
  rewrite Hdec. unfold creation_failed. unfold_m.
  eexists. split; [reflexivity|]. simpl.
  rewrite Ho4, Ho3, Hp4, Hp3, Hd4. done.
Qed.

(** Two lines; the database rejects the second decrement. *)
Lemma rejected_decrement_keeps_order_witness :
  ∃ w',
    post_orders env1 (request [entry P 1; entry P 2])
      (set_dbFaults [false; false; false; false; true; true] shop) =
      (Normal (json 500 (ErrorBody "Failed to create order.")), w') ∧
    orders w' = orders shop ++
      [order_of env1 (omap (snapshot (products shop)) [entry P 1; entry P 2])] ∧
    products w' =
      apply_decrements (take 1 (omap (snapshot (products shop)) [entry P 1; entry P 2]))
        (products shop) ∧
    dbFaults w' = [true].
Proof.
  apply (rejected_decrement_keeps_order env1 []
           (set_dbFaults [false; false; false; false; true; true] shop)
           [entry P 1; entry P 2] 1 [true]).
  - reflexivity.
  - reflexivity.
  - vm_compute. lia.
  - reflexivity.
Defined.

(** ** Updating the status *)

Lemma invalid_status_Some s :
  invalid_status (Some s) = negb (includes allowedStatuses (toUpperCase s)).
Proof.
  unfold invalid_status. destruct (falsy_string s) eqn:Hs; [|reflexivity].
  by apply String.eqb_eq in Hs as ->.
Qed.

Lemma Order_find_update_first id f os o :
  (∀ o, Order._id (f o) = Order._id o) →
  Order_find id os = Some o →
  Order_find id (update_first id f os) = Some (f o).
Proof.
  intros Hf. unfold Order_find. induction os as [|x os IH]; simpl; [discriminate|].
  destruct (String.eqb (Order._id x) id) eqn:E; simpl.
  - intros [= ->]. by rewrite Hf, E.
  - rewrite E. exact IH.
Qed.





(** ** The publisher and the request *)

Lemma blind_ret {A} (a : A) : publisher_blind (ret a).
Proof. by intros w1 w2 H. Qed.

Lemma blind_throw {A} e : publisher_blind (@throw A e).
Proof. by intros w1 w2 H. Qed.

Lemma blind_bind {A B} (m : M A) (f : A → M B) :
  publisher_blind m → (∀ a, publisher_blind (f a)) → publisher_blind (bind m f).
Proof.
  intros Hm Hf w1 w2 Heq. unfold bind. specialize (Hm w1 w2 Heq).
  destruct (m w1) as [[a1|e1] w1'], (m w2) as [[a2|e2] w2'];
    simpl in Hm; destruct Hm as [Hr Hw]; try discriminate.
  - injection Hr as ->. by apply Hf.
  - by injection Hr as ->.
Qed.

Lemma blind_try_catch {A} (m : M A) (h : Exn → M A) :
  publisher_blind m → (∀ e, publisher_blind (h e)) → publisher_blind (try_catch m h).
Proof.
  intros Hm Hh w1 w2 Heq. unfold try_catch. specialize (Hm w1 w2 Heq).
  destruct (m w1) as [[a1|e1] w1'], (m w2) as [[a2|e2] w2'];
    simpl in Hm; destruct Hm as [Hr Hw]; try discriminate.
  - by injection Hr as ->.
  - injection Hr as ->. by apply Hh.
Qed.

Lemma blind_console_write lvl args : publisher_blind (console_write lvl args).
Proof. intros w1 w2 (Hp & Ho & Hd). by split. Qed.

Lemma blind_db_call : publisher_blind db_call.
Proof.
  intros w1 w2 (Hp & Ho & Hd). unfold db_call. rewrite Hd.
  destruct (dbFaults w2) as [|[] fs] eqn:E; simpl; (split; [done|]);
    unfold same_database; simpl; repeat split; congruence.
Qed.

Lemma blind_publish env order : publisher_blind (publish env order).
Proof.
  intros w1 w2 (Hp & Ho & Hd).
  destruct (publish_returns env order w1) as (w1' & -> & Hp1 & Ho1 & Hd1 & _).
  destruct (publish_returns env order w2) as (w2' & -> & Hp2 & Ho2 & Hd2 & _).
  simpl. unfold same_database. by rewrite Hp1, Ho1, Hd1, Hp2, Ho2, Hd2.
Qed.

Lemma blind_gets_products pid : publisher_blind (gets (fun w => products w !! pid)).
Proof. intros w1 w2 (Hp & Ho & Hd). unfold gets. simpl. by rewrite Hp. Qed.

Lemma blind_set_products f : publisher_blind (modify (set_products f)).
Proof.
  intros w1 w2 (Hp & Ho & Hd). unfold modify, same_database. simpl. by rewrite Hp.
Qed.

Lemma blind_set_orders f : publisher_blind (modify (set_orders f)).
Proof.
  intros w1 w2 (Hp & Ho & Hd). unfold modify, same_database. simpl. by rewrite Ho.
Qed.

Create HintDb blind.
#[local] Hint Resolve blind_ret blind_throw blind_bind blind_try_catch
  blind_console_write blind_db_call blind_publish blind_gets_products
  blind_set_products blind_set_orders : blind.

Lemma blind_Product_findById pid : publisher_blind (Product_findById pid).
Proof. unfold Product_findById. destruct (isObjectId pid); auto with blind. Qed.

Lemma blind_Product_updateOne pid delta : publisher_blind (Product_updateOne pid delta).
Proof. unfold Product_updateOne. auto with blind. Qed.

Lemma blind_Order_save env o : publisher_blind (Order_save env o).
Proof. unfold Order_save. destruct (order_valid o); auto 6 with blind. Qed.

#[local] Hint Resolve blind_Product_findById blind_Product_updateOne
  blind_Order_save : blind.

Lemma blind_validate_items items : ∀ orderItems totalAmount,
  publisher_blind (validate_items items orderItems totalAmount).
Proof.
  induction items as [|item rest IH]; intros acc tot; simpl; [auto with blind|].
  destruct (ReqItem.productId item) as [pid|], (ReqItem.quantity item) as [q|];
    auto with blind.
  destruct (falsy_string pid || falsy_number q || num_le q 0); [auto with blind|].
  apply blind_bind; [auto with blind|]. intros [p|]; [|auto with blind].
  destruct (num_lt (Product.stock p) q); auto with blind.
Qed.

Lemma blind_decrement_stock lines : publisher_blind (decrement_stock lines).
Proof. induction lines as [|l lines IH]; simpl; auto with blind. Qed.

#[local] Hint Resolve blind_validate_items blind_decrement_stock : blind.

Lemma blind_post_orders env reqBody : publisher_blind (post_orders env reqBody).
Proof.
  unfold post_orders, creation_failed. apply blind_try_catch; [|auto with blind].
  destruct (PostBody.items reqBody) as [|[|item rest]|before]; auto with blind.
  - apply blind_bind; [auto with blind|].
    intros [resp|[lines total]]; [auto with blind|].
    unfold create_order. auto 8 with blind.
  - apply blind_bind; [auto with blind|].
    intros [resp|[lines total]]; auto with blind.
Qed.

(** C8. [sendOrderCreatedMessage] returns normally in every world: it never
    throws to its caller, and it touches neither the catalog nor the
    orders.  Without a sender it sends nothing and only writes a warning;
    and no sender exists when the connection string or the queue name is
    missing at start-up.  When sending on an existing sender fails, nothing
    is sent and the failure is only written to the console.  And the
    answer of a place-order request, the orders and the catalog after it
    are the same whatever the sender is and however the bus behaves. *)
Theorem publisher_never_raises env order w :
  (∃ w', sendOrderCreatedMessage env order w = (Normal tt, w') ∧ same_store w w') ∧
  (sbSender w = None →
   sendOrderCreatedMessage env order w =
     (Normal tt, set_console (fun c => c ++ [sender_missing]) w)) ∧
  (∀ conn queue sdkThrows,
     conn = None ∨ conn = Some "" ∨ queue = None ∨ queue = Some "" →
     sbSender w = None →
     ∃ w', initServiceBus conn queue sdkThrows w = (Normal tt, w') ∧
           sbSender w' = None ∧ same_store w w') ∧
  (∀ s fs,
     sbSender w = Some s → sbFaults w = true :: fs →
     sendOrderCreatedMessage env order w =
       (Normal tt, set_console (fun c => c ++ [send_failed "send failed"])
                     (set_sbFaults fs w))) ∧
  (∀ reqBody sender faults,
     let w2 := set_sbFaults faults (set_sbSender sender w) in
     (post_orders env reqBody w2).1 = (post_orders env reqBody w).1 ∧
     products (post_orders env reqBody w2).2 = products (post_orders env reqBody w).2 ∧
     orders (post_orders env reqBody w2).2 = orders (post_orders env reqBody w).2).
Proof.
  split; [apply sendOrderCreatedMessage_returns|].
  split; [|split; [|split]].
  - intros Hs. unfold sendOrderCreatedMessage. unfold_m. by rewrite Hs.
  - intros conn queue sdk Hmiss Hs. unfold initServiceBus, try_catch.
    destruct conn as [conn|], queue as [queue|];
      try (eexists; split; [reflexivity|]; by repeat split).
    assert (falsy_string conn || falsy_string queue = true) as ->.
    { destruct Hmiss as [H|[H|[H|H]]]; try discriminate; injection H as ->;
        simpl; by rewrite ?orb_true_r. }
    eexists; split; [reflexivity|]. by repeat split.
  - intros s fs Hs Hf. unfold sendOrderCreatedMessage. unfold_m.
    rewrite Hs. unfold sendMessages. by rewrite Hf.
  - intros reqBody sender faults w2.
    destruct (blind_post_orders env reqBody w2 w) as (Hr & Hp & Ho & _); [|done].
    by repeat split.
Qed.

(** Start-up with a connection string and no queue name. *)
Lemma publisher_never_raises_witness :
  ∃ w', initServiceBus (Some "Endpoint=sb://shop/") None false shop = (Normal tt, w') ∧
        sbSender w' = None ∧ same_store shop w'.
Proof.
  destruct (publisher_never_raises env1 first_order shop) as (_ & _ & H & _).
  apply (H (Some "Endpoint=sb://shop/") None false).
  - right. right. left. reflexivity.
  - reflexivity.
Defined.

(** ** Quantities of stored lines *)

Lemma quantities_ok_app os1 os2 :
  quantities_ok (os1 ++ os2) = quantities_ok os1 && quantities_ok os2.
Proof. apply forallb_app. Qed.

Lemma order_valid_quantities o :
  order_valid o = true → quantities_ok [o] = true.
Proof.
  unfold order_valid, quantities_ok. simpl.
  intros [_ H]%andb_true_iff. rewrite andb_true_r.
  induction (Order.items o) as [|l ls IH]; simpl in *; [done|].
  apply andb_true_iff in H as [[_ Hq]%andb_true_iff Hls].
  by rewrite Hq, IH.
Qed.

Lemma quantities_ok_update_first id f os :
  (∀ o, Order.items (f o) = Order.items o) →
  quantities_ok (update_first id f os) = quantities_ok os.
Proof.
  intros Hf. induction os as [|o os IH]; simpl; [done|].
  destruct (String.eqb (Order._id o) id); simpl.
  - by rewrite Hf.
  - by rewrite IH.
Qed.

Lemma patch_order_orders env id status w :
  orders (patch_order env id status w).2 = orders w ∨
  ∃ s, orders (patch_order env id status w).2 =
         update_first id (set_status env s) (orders w).
Proof.
  unfold patch_order. destruct (invalid_status status); [by left|].
  unfold Order_findByIdAndUpdate. unfold_m. destruct (isObjectId id); [|by left].
  unfold db_call.
  destruct (dbFaults w) as [|[] fs]; simpl; try (by left);
    (destruct (Order_find id (orders w)); simpl; [right; by eexists|by left]).
Qed.

(** C9, where the code differs: a request for one and a
    half widgets passes the loop ([3/2 > 0], stock 5) and the schema
    ([min: 1]), and the stored line has the quantity 3/2, which is not an
    integer. *)
Lemma fractional_quantity_is_stored :
  (post_orders env1 (request [entry P (3 # 2)]) shop).1 =
    Normal (json 201 (OrderBody (order_of env1 [OrderItem.mk P "Widget" 10 (3 # 2)]))) ∧
  orders (post_orders env1 (request [entry P (3 # 2)]) shop).2 =
    [order_of env1 [OrderItem.mk P "Widget" 10 (3 # 2)]] ∧
  is_integer (3 # 2) = false.
Proof. vm_compute. repeat split. Qed.

(** C9, as the code has it.  Every line of every stored order has a
    quantity that is a number of at least one: this holds of the empty
    collection and is kept by every place-order request and every status
    update, whatever they answer. *)
Theorem stored_quantities_at_least_one :
  quantities_ok [] = true ∧
  (∀ env reqBody w,
     quantities_ok (orders w) = true →
     quantities_ok (orders (post_orders env reqBody w).2) = true) ∧
  (∀ env id status w,
     quantities_ok (orders w) = true →
     quantities_ok (orders (patch_order env id status w).2) = true) ∧
  (∀ os o l,
     quantities_ok os = true → o ∈ os → l ∈ Order.items o →
     (1 <= OrderItem.quantity l)%Q).
Proof.
  split; [reflexivity|]. split; [|split].
  - intros env reqBody w Hw.
    destruct (post_orders env reqBody w) as [r w'] eqn:Hrun. simpl.
    apply post_orders_inv in Hrun
      as [(msg & _ & Hsame)|[(_ & _ & Ho)|(items & lines & _ & _ & _ & Hv & Ho & _)]].
    + by rewrite (same_data_orders _ _ Hsame).
    + by rewrite Ho.
    + by rewrite Ho, quantities_ok_app, Hw, (order_valid_quantities _ Hv).
  - intros env id status w Hw.
    destruct (patch_order_orders env id status w) as [->|[s ->]]; [done|].
    by rewrite quantities_ok_update_first.
  - intros os o l Hos Ho Hl. unfold quantities_ok in Hos.
    rewrite forallb_forall in Hos. apply list_elem_of_In in Ho, Hl.
    specialize (Hos o Ho). rewrite forallb_forall in Hos.
    apply num_le_true. by apply Hos.
Qed.

(** A second order, for one and a half widgets. *)
Lemma stored_quantities_at_least_one_witness :
  quantities_ok (orders (post_orders env2 (request [entry P (3 # 2)]) shop_after_order).2)
  = true.
Proof.
  destruct stored_quantities_at_least_one as (_ & H & _).
  apply (H env2 (request [entry P (3 # 2)]) shop_after_order).
  reflexivity.
Defined.

(** ** What the handler reads of the request *)

(** C10. The handler reads [items] and nothing else of the body: two
    bodies with the same [items] get the same answer and leave the same
    world, whatever [status], [totalAmount], [customerEmail] or other
    fields they carry.  And an order the handler stores has the status
    PENDING. *)
Theorem only_items_is_read :
  (∀ env body1 body2 w,
     PostBody.items body1 = PostBody.items body2 →
     post_orders env body1 w = post_orders env body2 w) ∧
  (∀ env reqBody w,
     orders (post_orders env reqBody w).2 = orders w ∨
     ∃ order,
       orders (post_orders env reqBody w).2 = orders w ++ [order] ∧
       Order.status order = "PENDING").
Proof.
  split.
  - intros env body1 body2 w H. unfold post_orders. by rewrite H.
  - intros env reqBody w.
    destruct (post_orders env reqBody w) as [r w'] eqn:Hrun. simpl.
    apply post_orders_inv in Hrun
      as [(msg & _ & Hsame)|[(_ & _ & Ho)|(items & lines & _ & _ & _ & _ & Ho & _)]].
    + left. by apply same_data_orders.
    + by left.
    + right. by exists (order_of env lines).
Qed.

(** A body that also carries a status, a total and an e-mail address. *)
Lemma only_items_is_read_witness :
  post_orders env1
    (PostBody.mk (ItemsArray [entry P 3])
       [("status", "COMPLETED"); ("totalAmount", "0.01"); ("customerEmail", "a@b.c")])
    shop
  = post_orders env1 (request [entry P 3]) shop.
Proof.
  destruct only_items_is_read as [H _].
  apply (H env1). reflexivity.
Defined.

(** * Beyond the claims *)

(** ** Reading one order *)






Lemma Order_find_app_fresh id os o :
  Order_find id os = None → Order._id o = id → Order_find id (os ++ [o]) = Some o.
Proof.
  unfold Order_find. intros Hnone Hid.
  induction os as [|x os IH]; simpl in *.
  - by rewrite Hid, String.eqb_refl.
  - destruct (String.eqb (Order._id x) id); [discriminate|]. by apply IH.
Qed.

(** X2. An order that was just placed can be read back: after a 201, when
    no earlier order had the new id, [GET /api/orders/:id] with that id
    answers 200 with the very record the 201 carried, and that record has
    the status PENDING and the id the request was given. *)
Theorem placed_order_is_read_back env reqBody w response w' :
  post_orders env reqBody w = (Normal response, w') →
  Response.status response = 201 →
  Order_find (newId env) (orders w) = None →
  db_ok_for 1 w' = true →
  ∃ order,
    Response.body response = OrderBody order ∧
    Order._id order = newId env ∧
    Order.status order = "PENDING" ∧
    (get_order (newId env) w').1 = Normal (json 200 (OrderBody order)).
Proof.
  intros Hrun Hst Hfresh Hdb.
  apply post_orders_inv in Hrun
    as [(msg & [= ->] & _)|[([= ->] & _)|(items & lines & _ & _ & _ & _ & Ho & Hr)]];
    try discriminate.
  destruct Hr as [([= ->] & _)|([= ->] & _)]; [|discriminate].
  exists (order_of env lines). repeat split.
  unfold get_order. unfold_m. rewrite (newId_ok env), (db_call_ok _ Hdb). simpl.
  rewrite Ho, (Order_find_app_fresh _ _ (order_of env lines)); done.
Qed.

(** Three widgets ordered in the shop, then read back. *)
Lemma placed_order_is_read_back_witness :
  ∃ order,
    OrderBody first_order = OrderBody order ∧
    Order._id order = newId env1 ∧
    Order.status order = "PENDING" ∧
    (get_order (newId env1) shop_after_order).1 = Normal (json 200 (OrderBody order)).
Proof.
  apply (placed_order_is_read_back env1 (request [entry P 3]) shop
           (json 201 (OrderBody first_order)) shop_after_order).
  - vm_compute. reflexivity.
  - reflexivity.
  - reflexivity.
  - reflexivity.
Defined.

(** ** Listing the orders *)

Lemma stamp_le_total a b : stamp_le a b = true ∨ stamp_le b a = true.
Proof.
  destruct a as [x|], b as [y|]; simpl; auto.
  destruct (Z.leb_spec x y); [by left|right]. apply Z.leb_le. lia.
Qed.

Lemma stamp_le_trans a b c :
  stamp_le a b = true → stamp_le b c = true → stamp_le a c = true.
Proof.
  destruct a as [x|], b as [y|], c as [z|]; simpl; try done.
  rewrite !Z.leb_le. lia.
Qed.

#[global] Instance newest_first_total : Total newest_first.
Proof. intros o1 o2. unfold newest_first. apply stamp_le_total. Qed.

#[global] Instance newest_first_trans : Transitive newest_first.
Proof. intros o1 o2 o3 H12 H23. unfold newest_first in *. eauto using stamp_le_trans. Qed.

Lemma get_orders_frame w :
  products (get_orders w).2 = products w ∧
  orders (get_orders w).2 = orders w ∧
  sent (get_orders w).2 = sent w.
Proof.
  unfold get_orders, Order_find_recent. unfold_m.
  destruct (db_call w) as [[[]|e] w1] eqn:Hdb; apply db_call_same_data in Hdb;
    unfold same_data in Hdb; rewrite Hdb; by simpl.
Qed.

(** X3. [GET /api/orders] only reads.  When the database answers it sends
    200 with at most 50 orders - exactly 50 when the store has more - all
    of them stored orders, newest first by [createdAt]; every order it
    leaves out was created no later than every order it sends; and with 50
    orders or fewer in the store it sends them all.  When the database
    rejects the call the answer is the 500 with its generic message. *)
Theorem get_orders_recent w :
  (db_ok_for 1 w = true →
   ∃ os,
     (get_orders w).1 = Normal (ListResponse.mk 200 (OrdersBody os)) ∧
     length os = Nat.min 50 (length (orders w)) ∧
     StronglySorted newest_first os ∧
     (∀ o, o ∈ os → o ∈ orders w) ∧
     (∀ o o', o ∈ os → o' ∈ orders w → o' ∉ os → newest_first o o') ∧
     ((length (orders w) ≤ 50)%nat → os ≡ₚ orders w)) ∧
  (∀ fs, dbFaults w = true :: fs →
         (get_orders w).1 = Normal (ListResponse.mk 500 (ListError "Failed to fetch orders."))) ∧
  products (get_orders w).2 = products w ∧
  orders (get_orders w).2 = orders w ∧
  sent (get_orders w).2 = sent w.
Proof.
  split; [|split; [|apply get_orders_frame]].
  - intros Hdb. exists (take 50 (merge_sort newest_first (orders w))).
    pose proof (merge_sort_Permutation newest_first (orders w)) as Hperm.
    pose proof (StronglySorted_merge_sort newest_first (orders w)) as Hsorted.
    split; [|split; [|split; [|split; [|split]]]].
    + unfold get_orders, Order_find_recent. unfold_m. by rewrite (db_call_ok _ Hdb).
    + by rewrite length_take, Hperm.
    + rewrite <- (take_drop 50 (merge_sort newest_first (orders w))) in Hsorted.
      by apply StronglySorted_app_1_l in Hsorted.
    + intros o Ho. rewrite <- Hperm, <- (take_drop 50 (merge_sort newest_first (orders w))).
      apply elem_of_app. by left.
    + intros o o' Ho Ho' Hout.
      rewrite <- (take_drop 50 (merge_sort newest_first (orders w))) in Hsorted.
      eapply StronglySorted_app_1_elem_of; [exact Hsorted|exact Ho|].
      rewrite <- Hperm, <- (take_drop 50 (merge_sort newest_first (orders w))) in Ho'.
      apply elem_of_app in Ho' as [?|?]; done.
    + intros Hlen. rewrite take_ge; [done|]. by rewrite Hperm.
  - intros fs Hf. unfold get_orders, Order_find_recent. unfold_m.
    unfold db_call. by rewrite Hf.
Qed.

(** The list of the shop after its first order. *)
Lemma get_orders_recent_witness :
  ∃ os,
    (get_orders shop_after_order).1 = Normal (ListResponse.mk 200 (OrdersBody os)) ∧
    length os = Nat.min 50 (length (orders shop_after_order)) ∧
    StronglySorted newest_first os ∧
    (∀ o, o ∈ os → o ∈ orders shop_after_order) ∧
    (∀ o o', o ∈ os → o' ∈ orders shop_after_order → o' ∉ os → newest_first o o') ∧
    ((length (orders shop_after_order) ≤ 50)%nat → os ≡ₚ orders shop_after_order).
Proof.
  destruct (get_orders_recent shop_after_order) as (H & _).
  apply H. reflexivity.
Defined.

(** ** Placing an order: the failures that are not the client's *)

(** One round of the loop on an acceptable entry when the database rejects
    the look-up. *)
Lemma validate_items_throws catalog item rest orderItems totalAmount w fs :
  entry_ok catalog item = true →
  dbFaults w = true :: fs →
  validate_items (item :: rest) orderItems totalAmount w =
    (Throw (DbError "database operation failed"), set_dbFaults fs w).
Proof.
  intros Hok Hf. unfold entry_ok in Hok.
  destruct item as [[pid|] [q|]]; simpl in Hok; try discriminate.
  destruct (falsy_string pid) eqn:Hpid; [discriminate|].
  destruct (num_le q 0) eqn:Hq; [discriminate|].
  destruct (isObjectId pid) eqn:Hoid; [|discriminate].
  simpl. rewrite <- orb_assoc, quantity_check, Hpid, Hq. simpl.
  unfold_m. unfold db_call. by rewrite Hoid, Hf.
Qed.

(** X4. When the database rejects a product look-up of the first loop (the
    entries being acceptable, the look-ups before it answered), the request
    is answered with the 500 and its generic message, and nothing has
    happened: no order is stored, no stock has changed, nothing is sent to
    the queue, and the database is not called again. *)
Theorem lookup_failure_changes_nothing env other w items k fs :
  forallb (entry_ok (products w)) items = true →
  k < length items →
  dbFaults w = replicate k false ++ true :: fs →
  ∃ w',
    post_orders env (PostBody.mk (ItemsArray items) other) w = (Normal creation_error, w') ∧
    products w' = products w ∧ orders w' = orders w ∧ sent w' = sent w ∧
    dbFaults w' = fs.
Proof.
  intros Hok Hk Hf.
  assert (Hne : items ≠ []) by (intros ->; simpl in Hk; lia).
  apply db_ok_for_replicate in Hf as [Hdb Hdrop].
  rewrite <- (take_drop k items) in Hok. rewrite forallb_app in Hok.
  apply andb_true_iff in Hok as [Hpre Hpost].
  destruct (drop k items) as [|item rest] eqn:Hd.
  { apply (f_equal length) in Hd. rewrite length_drop in Hd. simpl in Hd. lia. }
  simpl in Hpost. apply andb_true_iff in Hpost as [Hitem _].
  assert (Hlen : length (take k items) = k) by (rewrite length_take; lia).
  erewrite post_orders_thrown; [|done|].
  2:{ rewrite <- (take_drop k items), Hd.
      rewrite validate_items_app by (by rewrite ?Hlen).
      rewrite Hlen, Hdrop.
      eapply validate_items_throws; [exact Hitem|reflexivity]. }
  unfold creation_failed. unfold_m. eexists. split; [reflexivity|]. by simpl.
Qed.

(** Two entries; the database rejects the second look-up. *)
Lemma lookup_failure_changes_nothing_witness :
  ∃ w',
    post_orders env1 (request [entry P 1; entry P 2])
      (set_dbFaults [false; true; false] shop) = (Normal creation_error, w') ∧
    products w' = products shop ∧ orders w' = orders shop ∧ sent w' = sent shop ∧
    dbFaults w' = [false].
Proof.
  apply (lookup_failure_changes_nothing env1 []
           (set_dbFaults [false; true; false] shop) [entry P 1; entry P 2] 1 [false]).
  - reflexivity.
  - simpl. lia.
  - reflexivity.
Defined.

(** X5. The first loop lets a quantity between 0 and 1 through, and a
    product without a name; the schema does not.  When every entry passes
    the loop but some line fails the schema ([quantity] below 1, or an
    empty [name]), the request is answered with the 500, not a 400; the
    order is not stored, no stock has changed, nothing is sent to the
    queue, and the insert never reaches the database. *)
Theorem schema_rejection_changes_nothing env other w items :
  items ≠ [] →
  forallb (entry_ok (products w)) items = true →
  forallb orderItem_valid (omap (snapshot (products w)) items) = false →
  db_ok_for (length items) w = true →
  ∃ w',
    post_orders env (PostBody.mk (ItemsArray items) other) w = (Normal creation_error, w') ∧
    products w' = products w ∧ orders w' = orders w ∧ sent w' = sent w ∧
    dbFaults w' = drop (length items) (dbFaults w).
Proof.
  intros Hne Hok Hinvalid Hdb.
  erewrite post_orders_created; [|done|by apply validate_items_ok].
  simpl app. unfold try_catch, create_order, bind, Order_save, order_valid. simpl.
  rewrite Hinvalid, andb_false_r. unfold throw, creation_failed. unfold_m.
  eexists. split; [reflexivity|]. by simpl.
Qed.

(** Half a widget. *)
Lemma schema_rejection_changes_nothing_witness :
  ∃ w',
    post_orders env1 (request [entry P (1 # 2)]) shop = (Normal creation_error, w') ∧
    products w' = products shop ∧ orders w' = orders shop ∧ sent w' = sent shop ∧
    dbFaults w' = drop (length [entry P (1 # 2)]) (dbFaults shop).
Proof.
  apply (schema_rejection_changes_nothing env1 [] shop [entry P (1 # 2)]).
  - discriminate.
  - reflexivity.
  - reflexivity.
  - reflexivity.
Defined.

(** ** The catalog after a request *)

Lemma lookup_decrement catalog l pid :
  decrement catalog l !! pid =
  if String.eqb (OrderItem.productId l) pid
  then (fun p => Product.set_stock (Product.stock p + - OrderItem.quantity l)%Q p)
         <$> catalog !! pid
  else catalog !! pid.
Proof.
  unfold decrement. destruct (String.eqb_spec (OrderItem.productId l) pid) as [->|Hne].
  - apply lookup_alter_eq.
  - by apply lookup_alter_ne.
Qed.

(** The second loop changes the stock of the products the lines name, and
    nothing else. *)
Lemma lookup_apply_decrements lines : ∀ catalog pid,
  apply_decrements lines catalog !! pid =
  (fun p => Product.set_stock (stock_after pid lines (Product.stock p)) p)
    <$> catalog !! pid.
Proof.
  induction lines as [|l lines IH]; intros catalog pid.
  - simpl. by destruct (catalog !! pid) as [[]|].
  - change (apply_decrements (l :: lines) catalog)
      with (apply_decrements lines (decrement catalog l)).
    rewrite IH, lookup_decrement. unfold stock_after. simpl.
    destruct (String.eqb (OrderItem.productId l) pid); [|done].
    by destruct (catalog !! pid) as [[]|].
Qed.

Lemma stock_after_not_named pid lines s :
  pid ∉ OrderItem.productId <$> lines → stock_after pid lines s = s.
Proof.
  unfold stock_after. revert s.
  induction lines as [|l lines IH]; intros s; [done|]. simpl. intros H.
  apply not_elem_of_cons in H as [Hne Hrest].
  destruct (String.eqb_spec (OrderItem.productId l) pid); [congruence|by apply IH].
Qed.

Lemma stock_after_le pid lines : ∀ s,
  Forall (fun l => (0 <= OrderItem.quantity l)%Q) lines →
  (stock_after pid lines s <= s)%Q.
Proof.
  unfold stock_after.
  induction lines as [|l lines IH]; intros s Hq; simpl; [apply Qle_refl|].
  apply Forall_cons in Hq as [Hl Hq].
  eapply Qle_trans; [by apply IH|].
  destruct (String.eqb (OrderItem.productId l) pid); [|apply Qle_refl].
  rewrite <- (Qplus_0_r s) at 2. apply Qplus_le_compat; [apply Qle_refl|].
  apply (Qopp_le_compat 0). exact Hl.
Qed.

(** X6. The stock after a successful placement, product by product: the
    answer is 201 with an order, and every product of the catalog is still
    there with its name, category and price, its stock being what the
    decrements of the lines that name it leave of the stock before, taken
    one after the other in the order of the lines (no sum of quantities is
    formed); a product no line names is exactly as it was, and no product
    appears. *)
Theorem stock_accounting env reqBody w response w' :
  post_orders env reqBody w = (Normal response, w') →
  Response.status response = 201 →
  ∃ order,
    Response.body response = OrderBody order ∧
    ∀ pid,
      (∀ p, products w !! pid = Some p →
            ∃ p', products w' !! pid = Some p' ∧
                  Product.name p' = Product.name p ∧
                  Product.category p' = Product.category p ∧
                  Product.price p' = Product.price p ∧
                  Product.stock p' =
                    stock_after pid (Order.items order) (Product.stock p)) ∧
      (products w !! pid = None → products w' !! pid = None) ∧
      (pid ∉ OrderItem.productId <$> Order.items order →
       products w' !! pid = products w !! pid).
Proof.
  intros Hrun Hst.
  apply post_orders_inv in Hrun
    as [(msg & [= ->] & _)|[([= ->] & _)|(items & lines & _ & _ & _ & _ & _ & Hr)]];
    try discriminate.
  destruct Hr as [([= ->] & Hp)|([= ->] & _)]; [|discriminate].
  exists (order_of env lines). split; [done|]. intros pid.
  rewrite Hp, lookup_apply_decrements. simpl. split; [|split].
  - intros p ->. eexists. split; [reflexivity|]. simpl.
    by repeat split.
  - by intros ->.
  - intros Hout. destruct (products w !! pid) as [[]|]; [|done]. simpl.
    by rewrite stock_after_not_named.
Qed.

(** Two lines for the widget, two and one. *)
Lemma stock_accounting_witness :
  ∃ order,
    OrderBody (order_of env1 [OrderItem.mk P "Widget" 10 2; OrderItem.mk P "Widget" 10 1])
      = OrderBody order ∧
    ∀ pid,
      (∀ p, products shop !! pid = Some p →
            ∃ p', products (post_orders env1 (request [entry P 2; entry P 1]) shop).2
                    !! pid = Some p' ∧
                  Product.name p' = Product.name p ∧
                  Product.category p' = Product.category p ∧
                  Product.price p' = Product.price p ∧
                  Product.stock p' =
                    stock_after pid (Order.items order) (Product.stock p)) ∧
      (products shop !! pid = None →
       products (post_orders env1 (request [entry P 2; entry P 1]) shop).2 !! pid = None) ∧
      (pid ∉ OrderItem.productId <$> Order.items order →
       products (post_orders env1 (request [entry P 2; entry P 1]) shop).2 !! pid
       = products shop !! pid).
Proof.
  apply (stock_accounting env1 (request [entry P 2; entry P 1]) shop
           (json 201 (OrderBody (order_of env1
              [OrderItem.mk P "Widget" 10 2; OrderItem.mk P "Widget" 10 1])))).
  - vm_compute. reflexivity.
  - reflexivity.
Defined.

(** A product that one line names, and no other, is decremented once. *)
Lemma stock_after_once lines : ∀ l s,
  NoDup (OrderItem.productId <$> lines) → l ∈ lines →
  stock_after (OrderItem.productId l) lines s = (s + - OrderItem.quantity l)%Q.
Proof.
  induction lines as [|x lines IH]; intros l s Hnd Hl; [by apply elem_of_nil in Hl|].
  simpl in Hnd. apply NoDup_cons in Hnd as [Hx Hnd].
  change (stock_after (OrderItem.productId l) (x :: lines) s)
    with (stock_after (OrderItem.productId l) lines
            (if String.eqb (OrderItem.productId x) (OrderItem.productId l)
             then (s + - OrderItem.quantity x)%Q else s)).
  apply elem_of_cons in Hl as [->|Hl].
  - rewrite String.eqb_refl. by apply stock_after_not_named.
  - destruct (String.eqb_spec (OrderItem.productId x) (OrderItem.productId l)) as [E|_].
    + exfalso. apply Hx. rewrite E. by apply list_elem_of_fmap_2.
    + by apply IH.
Qed.

(** Every line the first loop produces is within the stock the catalog has
    for its product. *)
Lemma lines_within_stock catalog items lines :
  Forall2 (λ it l, snapshot catalog it = Some l) items lines →
  forallb (entry_ok catalog) items = true →
  Forall (fun l => ∃ p, catalog !! OrderItem.productId l = Some p ∧
                        (OrderItem.quantity l <= Product.stock p)%Q) lines.
Proof.
  induction 1 as [|item l items lines Hs _ IH]; intros Hok; [constructor|].
  simpl in Hok. apply andb_true_iff in Hok as [Hitem Hrest].
  constructor; [|by apply IH].
  unfold entry_ok in Hitem. unfold snapshot in Hs.
  destruct item as [[pid|] [q|]]; simpl in *; try discriminate.
  destruct (catalog !! pid) as [p|] eqn:Hp; [|discriminate].
  injection Hs as <-. simpl. exists p. split; [done|].
  apply andb_true_iff in Hitem as [_ Hle]. by apply num_le_true.
Qed.

(** X7. When no two lines of a placed order name the same product, the
    stock check does its work: after the 201 every product a line names
    has the stock it had minus the quantity of that line, and this stock is
    not negative. *)
Theorem distinct_products_keep_stock env reqBody w response w' order :
  post_orders env reqBody w = (Normal response, w') →
  Response.status response = 201 →
  Response.body response = OrderBody order →
  NoDup (OrderItem.productId <$> Order.items order) →
  ∀ l, l ∈ Order.items order →
    ∃ p p',
      products w !! OrderItem.productId l = Some p ∧
      products w' !! OrderItem.productId l = Some p' ∧
      (Product.stock p' == Product.stock p - OrderItem.quantity l)%Q ∧
      (0 <= Product.stock p')%Q.
Proof.
  intros Hrun Hst Hbody Hnd l Hl.
  apply post_orders_inv in Hrun
    as [(msg & [= ->] & _)|[([= ->] & _)|(items & lines & _ & Hsnap & Hok & _ & _ & Hr)]];
    try discriminate.
  destruct Hr as [([= ->] & Hp')|([= ->] & _)]; [|discriminate].
  simpl in Hbody. injection Hbody as <-. simpl in *.
  pose proof (lines_within_stock _ _ _ Hsnap Hok) as Hstock.
  rewrite Forall_forall in Hstock. destruct (Hstock l Hl) as (p & Hp & Hle).
  exists p, (Product.set_stock (stock_after (OrderItem.productId l) lines (Product.stock p)) p).
  split; [done|]. split; [by rewrite Hp', lookup_apply_decrements, Hp|].
  simpl. rewrite (stock_after_once _ _ _ Hnd Hl). split; [reflexivity|].
  by apply (proj1 (Qle_minus_iff _ _)).
Qed.

(** Three widgets out of five leave two. *)
Lemma distinct_products_keep_stock_witness :
  ∃ p p',
    products shop !! P = Some p ∧
    products shop_after_order !! P = Some p' ∧
    (Product.stock p' == Product.stock p - 3)%Q ∧
    (0 <= Product.stock p')%Q.
Proof.
  apply (distinct_products_keep_stock env1 (request [entry P 3]) shop
           (json 201 (OrderBody first_order)) shop_after_order first_order
           eq_refl eq_refl eq_refl
           (NoDup_singleton P)
           (OrderItem.mk P "Widget" 10 3)).
  vm_compute. left.
Defined.

Lemma valid_lines_nonnegative lines :
  forallb orderItem_valid lines = true →
  Forall (fun l => (0 <= OrderItem.quantity l)%Q) lines.
Proof.
  intros H. apply Forall_forall. intros l Hl%list_elem_of_In.
  rewrite forallb_forall in H. specialize (H l Hl).
  apply andb_true_iff in H as [_ H%num_le_true].
  eapply Qle_trans; [|exact H]. done.
Qed.

(** X8. Whatever a place-order request is answered - 201, 400 or 500, a
    rejected decrement included - the catalog keeps its products: none
    appears, none disappears, none changes its name, category or price,
    and no stock grows. *)
Theorem catalog_is_only_decremented env reqBody w pid :
  (products w !! pid = None →
   products (post_orders env reqBody w).2 !! pid = None) ∧
  (∀ p, products w !! pid = Some p →
        ∃ p', products (post_orders env reqBody w).2 !! pid = Some p' ∧
              Product.name p' = Product.name p ∧
              Product.category p' = Product.category p ∧
              Product.price p' = Product.price p ∧
              (Product.stock p' <= Product.stock p)%Q).
Proof.
  destruct (post_orders env reqBody w) as [r w'] eqn:Hrun. simpl.
  assert (Hsame : products w' = products w →
    (products w !! pid = None → products w' !! pid = None) ∧
    (∀ p, products w !! pid = Some p →
          ∃ p', products w' !! pid = Some p' ∧ Product.name p' = Product.name p ∧
                Product.category p' = Product.category p ∧
                Product.price p' = Product.price p ∧
                (Product.stock p' <= Product.stock p)%Q)).
  { intros ->. split; [done|]. intros p Hp. exists p. repeat split; try done.
    apply Qle_refl. }
  assert (Hdec : ∀ lines, Forall (fun l => (0 <= OrderItem.quantity l)%Q) lines →
    products w' = apply_decrements lines (products w) →
    (products w !! pid = None → products w' !! pid = None) ∧
    (∀ p, products w !! pid = Some p →
          ∃ p', products w' !! pid = Some p' ∧ Product.name p' = Product.name p ∧
                Product.category p' = Product.category p ∧
                Product.price p' = Product.price p ∧
                (Product.stock p' <= Product.stock p)%Q)).
  { intros lines Hq ->. rewrite lookup_apply_decrements. split; [by intros ->|].
    intros p ->. eexists. split; [reflexivity|]. simpl. repeat split.
    by apply stock_after_le. }
  apply post_orders_inv in Hrun
      as [(msg & _ & Hd)|[(_ & Hp & _)|(items & lines & _ & _ & _ & Hv & _ & Hr)]].
  - apply Hsame. by apply same_data_products.
  - by apply Hsame.
  - assert (Hq : Forall (fun l => (0 <= OrderItem.quantity l)%Q) lines).
    { apply valid_lines_nonnegative. unfold order_valid in Hv. simpl in Hv.
      by apply andb_true_iff in Hv as [_ Hv]. }
    destruct Hr as [(_ & Hp)|(_ & k & _ & Hp)].
    + by apply (Hdec lines).
    + apply (Hdec (take k lines)); [|done]. by apply Forall_take.
Qed.

(** The widget after a request whose second decrement is rejected. *)
Lemma catalog_is_only_decremented_witness :
  ∃ p', products (post_orders env1 (request [entry P 1; entry P 2])
                    (set_dbFaults [false; false; false; false; true] shop)).2 !! P
          = Some p' ∧
        Product.name p' = Product.name widget ∧
        Product.category p' = Product.category widget ∧
        Product.price p' = Product.price widget ∧
        (Product.stock p' <= Product.stock widget)%Q.
Proof.
  destruct (catalog_is_only_decremented env1 (request [entry P 1; entry P 2])
              (set_dbFaults [false; false; false; false; true] shop) P) as [_ H].
  apply (H widget). reflexivity.
Defined.

(** ** The event of a placed order *)

Lemma same_bus_refl w : same_bus w w.
Proof. by repeat split. Qed.

Lemma same_bus_trans w1 w2 w3 : same_bus w1 w2 → same_bus w2 w3 → same_bus w1 w3.
Proof. intros (?&?&?) (?&?&?). repeat split; congruence. Qed.

Lemma same_data_same_bus w w' : same_data w w' → same_bus w w'.
Proof. unfold same_data. intros ->. by repeat split. Qed.

Lemma Order_save_same_bus env o w r w' : Order_save env o w = (r, w') → same_bus w w'.
Proof.
  unfold Order_save. destruct (order_valid o).
  - unfold_m. unfold db_call.
    destruct (dbFaults w) as [|[] fs]; intros [= <- <-]; by repeat split.
  - unfold throw. intros [= <- <-]. apply same_bus_refl.
Qed.

Lemma decrement_stock_same_bus lines : ∀ w r w',
  decrement_stock lines w = (r, w') → same_bus w w'.
Proof.
  induction lines as [|l lines IH]; intros w r w'; simpl.
  - unfold ret. intros [= <- <-]. apply same_bus_refl.
  - unfold_m. unfold db_call.
    destruct (dbFaults w) as [|[] fs]; simpl.
    + intros H%IH. destruct H as (?&?&?). by repeat split.
    + intros [= <- <-]. by repeat split.
    + intros H%IH. destruct H as (?&?&?). by repeat split.
Qed.

(** What a publish call leaves in the queue. *)
Lemma publish_sent env order w :
  sent (publish env order w).2 =
  match sbSender w, sbFaults w with
  | None, _ | Some _, true :: _ => sent w
  | Some _, _ => sent w ++ [payload_of env order]
  end.
Proof.
  unfold publish, sendOrderCreatedMessage. unfold_m.
  destruct (sbSender w) as [s|]; [|done].
  unfold sendMessages. by destruct (sbFaults w) as [|[] fs].
Qed.

(** The publisher's side of a place-order request: either it was not
    reached, or exactly one publish call was made, for the stored order. *)
Lemma post_orders_bus env reqBody w r w' :
  post_orders env reqBody w = (r, w') →
  (same_bus w w' ∧ orders w' = orders w) ∨
  (∃ lines w2,
     orders w' = orders w ++ [order_of env lines] ∧
     same_bus w w2 ∧ same_bus (publish env (order_of env lines) w2).2 w').
Proof.
  unfold post_orders, try_catch, creation_failed.
  destruct (PostBody.items reqBody) as [|items|before] eqn:Hitems.
  { unfold ret. intros [= <- <-]. left. eauto using same_bus_refl. }
  2:{ unfold bind at 1.
      destruct (validate_items before [] 0%Q w) as [[[resp|[lines total]]|e] w1] eqn:Hv;
        pose proof (validate_items_same_data _ _ _ _ _ _ Hv) as Hsame.
      - unfold ret. intros [= <- <-]. left.
        eauto using same_data_same_bus, same_data_orders.
      - unfold_m. intros [= <- <-]. left. simpl. split.
        + apply same_data_same_bus in Hsame as (?&?&?). by repeat split.
        + by apply same_data_orders.
      - unfold_m. intros [= <- <-]. left. simpl. split.
        + apply same_data_same_bus in Hsame as (?&?&?). by repeat split.
        + by apply same_data_orders. }
  destruct items as [|item rest].
  { unfold ret. intros [= <- <-]. left. eauto using same_bus_refl. }
  unfold bind at 1.
  destruct (validate_items (item :: rest) [] 0%Q w) as [[[resp|[lines total]]|e] w1] eqn:Hv;
    pose proof (validate_items_same_data _ _ _ _ _ _ Hv) as Hsame.
  - unfold ret. intros [= <- <-]. left.
    eauto using same_data_same_bus, same_data_orders.
  - apply validate_items_inr in Hv as (new & _ & _ & -> & ->). simpl.
    unfold create_order. unfold bind at 1.
    destruct (Order_save env _ w1) as [[saved|e] w2] eqn:Hsave;
      pose proof (Order_save_same_bus _ _ _ _ _ Hsave) as Hbus2;
      apply Order_save_inv in Hsave as [_ Hsave].
    2:{ destruct Hsave as [(? & _ & Ho2)|(_ & ? & _)]; [|discriminate].
        unfold_m. intros [= <- <-]. left. simpl. split.
        - destruct Hbus2 as (?&?&?). apply same_data_same_bus in Hsame as (?&?&?).
          repeat split; simpl; congruence.
        - rewrite Ho2. by apply same_data_orders. }
    destruct Hsave as [(? & ? & _)|(_ & Heq & Ho2 & _ & _)]; [discriminate|].
    change (Normal saved = Normal (order_of env new)) in Heq.
    change (orders w2 = orders w1 ++ [order_of env new]) in Ho2.
    injection Heq as ->.
    unfold bind at 1.
    destruct (publish_returns env (order_of env new) w2) as (w3 & Hpub & _ & Ho3 & _ & _).
    assert (Hw3 : w3 = (publish env (order_of env new) w2).2) by (by rewrite Hpub).
    rewrite Hpub. unfold bind at 1.
    destruct (decrement_stock new w3) as [[[]|e] w4] eqn:Hdec;
      pose proof (decrement_stock_same_bus _ _ _ _ Hdec) as Hbus4;
      apply decrement_stock_inv in Hdec as [Ho4 _];
      unfold_m; intros [= <- <-]; right; exists new, w2; simpl.
    + split; [rewrite Ho4, Ho3, Ho2; by rewrite (same_data_orders _ _ Hsame)|].
      split; [eauto using same_bus_trans, same_data_same_bus|]. by rewrite <- Hw3.
    + split; [rewrite Ho4, Ho3, Ho2; by rewrite (same_data_orders _ _ Hsame)|].
      split; [eauto using same_bus_trans, same_data_same_bus|].
      rewrite <- Hw3. destruct Hbus4 as (?&?&?). by repeat split.
  - unfold_m. intros [= <- <-]. left. simpl. split.
    + apply same_data_same_bus in Hsame as (?&?&?). by repeat split.
    + by apply same_data_orders.
Qed.

Lemma payload_total env order :
  (Payload.totalAmount (payload_of env order) == Order.totalAmount order)%Q.
Proof.
  simpl. destruct (falsy_number (Order.totalAmount order)) eqn:E; [|reflexivity].
  apply Qeq_bool_iff in E. by rewrite E.
Qed.

(** X9. The event of a placed order.  After a 201, with a sender and a bus
    that takes the message, the queue has gained exactly one message, and
    it describes the order of the answer: its id, its lines, the status
    PENDING, the creation time, the total, and no customer e-mail (the
    order document has no such field).  With a sender whose send is
    rejected, or without a sender, the queue is as it was - and the answer
    is the 201 all the same. *)
Theorem placed_order_is_published env reqBody w response w' :
  post_orders env reqBody w = (Normal response, w') →
  Response.status response = 201 →
  ∃ order,
    Response.body response = OrderBody order ∧
    (is_Some (sbSender w) → head (sbFaults w) ≠ Some true →
     sent w' = sent w ++ [payload_of env order]) ∧
    (sbSender w = None ∨ head (sbFaults w) = Some true → sent w' = sent w) ∧
    Payload.orderId (payload_of env order) = newId env ∧
    Payload.items (payload_of env order) = Order.items order ∧
    Payload.status (payload_of env order) = "PENDING" ∧
    Payload.createdAt (payload_of env order) = now env ∧
    Payload.customerEmail (payload_of env order) = None ∧
    (Payload.totalAmount (payload_of env order) == Order.totalAmount order)%Q.
Proof.
  intros Hrun Hst.
  pose proof (post_orders_bus _ _ _ _ _ Hrun) as Hbus.
  apply post_orders_inv in Hrun
    as [(msg & [= ->] & _)|[([= ->] & _)|(items & lines & _ & _ & _ & _ & Ho & Hr)]];
    try discriminate.
  destruct Hr as [([= ->] & _)|([= ->] & _)]; [|discriminate].
  exists (order_of env lines). split; [done|].
  destruct Hbus as [[_ Ho']|(lines' & w2 & Ho' & (Hs2 & Hb2 & Hf2) & (Hs3 & _ & _))].
  { rewrite Ho' in Ho. apply (f_equal length) in Ho. rewrite length_app in Ho.
    simpl in Ho. lia. }
  rewrite Ho in Ho'. apply app_inv_head in Ho'.
  assert (lines' = lines) as -> by (by injection Ho').
  rewrite publish_sent, Hs2, Hb2, Hf2 in Hs3.
  split; [|split].
  - intros [s Hs] Hhead. rewrite Hs in Hs3.
    destruct (sbFaults w) as [|[] fs]; simpl in *; congruence.
  - intros [Hnone|Hhead].
    + by rewrite Hnone in Hs3.
    + destruct (sbFaults w) as [|[] fs]; simpl in *; try congruence.
      by destruct (sbSender w).
  - repeat split. apply payload_total.
Qed.

(** Three widgets ordered in the shop with a sender. *)
Lemma placed_order_is_published_witness :
  sent (post_orders env1 (request [entry P 3]) shop_with_bus).2 =
  sent shop_with_bus ++ [payload_of env1 first_order].
Proof.
  destruct (placed_order_is_published env1 (request [entry P 3]) shop_with_bus
              (json 201 (OrderBody first_order))
              (post_orders env1 (request [entry P 3]) shop_with_bus).2)
    as (order & Hbody & Hsent & _).
  - vm_compute. reflexivity.
  - reflexivity.
  - injection Hbody as <-. apply Hsent.
    + by eexists.
    + discriminate.
Defined.

(** ** Updating the status: what else holds *)

(** Every run of the status handler, case by case. *)
Lemma patch_order_inv env id status w r w' :
  patch_order env id status w = (r, w') →
  products w' = products w ∧ sent w' = sent w ∧
  ((invalid_status status = true ∧ r = Normal status_rejected ∧ w' = w) ∨
   (invalid_status status = false ∧
    r = Normal (json 500 (ErrorBody "Failed to update order.")) ∧
    orders w' = orders w) ∨
   (invalid_status status = false ∧ r = Normal order_not_found ∧
    orders w' = orders w ∧ Order_find id (orders w) = None) ∨
   (invalid_status status = false ∧
    ∃ o, Order_find id (orders w) = Some o ∧
         r = Normal (json 200
               (OrderBody (set_status env (toUpperCase (default "" status)) o))) ∧
         orders w' =
           update_first id (set_status env (toUpperCase (default "" status))) (orders w) ∧
         isObjectId id = true)).
Proof.
  unfold patch_order. destruct (invalid_status status).
  { unfold ret. intros [= <- <-]. split; [done|]. split; [done|]. left. by repeat split. }
  unfold Order_findByIdAndUpdate. unfold_m. destruct (isObjectId id).
  2:{ intros [= <- <-]. simpl. split; [done|]. split; [done|]. right. by left. }
  unfold db_call.
  destruct (dbFaults w) as [|[] fs]; simpl;
    try (destruct (Order_find id (orders w)) as [o|] eqn:Hf; simpl);
    intros [= <- <-]; simpl; (split; [done|]); (split; [done|]); right;
    try (by left); right; try (by left); right; eauto 10.
Qed.





Lemma upper_ascii_idemp c : upper_ascii (upper_ascii c) = upper_ascii c.
Proof. destruct c as [[] [] [] [] [] [] [] []]; reflexivity. Qed.

Lemma toUpperCase_idemp s : toUpperCase (toUpperCase s) = toUpperCase s.
Proof. induction s as [|c s IH]; simpl; [done|]. by rewrite upper_ascii_idemp, IH. Qed.

Lemma falsy_string_toUpperCase s : falsy_string (toUpperCase s) = falsy_string s.
Proof. by destruct s. Qed.

(** X11. The status is read without regard to case: two spellings with the
    same upper-case form get the same answer and leave the same world, and
    an upper-case form is its own upper-case form. *)
Theorem status_is_case_insensitive env id s1 s2 w :
  toUpperCase s1 = toUpperCase s2 →
  patch_order env id (Some s1) w = patch_order env id (Some s2) w ∧
  toUpperCase (toUpperCase s1) = toUpperCase s1.
Proof.
  intros Heq. split; [|apply toUpperCase_idemp].
  unfold patch_order, invalid_status. simpl.
  rewrite <- (falsy_string_toUpperCase s1), <- (falsy_string_toUpperCase s2).
  by rewrite Heq.
Qed.

(** Two spellings of [COMPLETED]. *)
Lemma status_is_case_insensitive_witness :
  patch_order env2 o1 (Some "completed") shop_after_order =
  patch_order env2 o1 (Some "CoMpLeTeD") shop_after_order ∧
  toUpperCase (toUpperCase "completed") = toUpperCase "completed".
Proof.
  apply (status_is_case_insensitive env2 o1 "completed" "CoMpLeTeD" shop_after_order).
  reflexivity.
Defined.

(** ** What every stored order keeps *)

Lemma forallb_update_first (P : Order.t → bool) id f os :
  (∀ o, P o = true → P (f o) = true) →
  forallb P os = true → forallb P (update_first id f os) = true.
Proof.
  intros Hf. induction os as [|x os IH]; simpl; [done|].
  intros [Hx Hos]%andb_true_iff.
  destruct (String.eqb (Order._id x) id); simpl.
  - by rewrite (Hf _ Hx), Hos.
  - by rewrite Hx, IH.
Qed.

Lemma invalid_status_false status :
  invalid_status status = false →
  includes allowedStatuses (toUpperCase (default "" status)) = true.
Proof.
  destruct status as [s|]; [|discriminate]. rewrite invalid_status_Some.
  simpl. by intros ->%negb_false_iff.
Qed.

(** X12. Every stored order has one of the statuses PENDING, COMPLETED,
    CANCELLED: this holds of the empty collection and is kept by every
    place-order request and every status update, whatever they are
    answered. *)
Theorem stored_statuses_are_allowed :
  statuses_ok [] = true ∧
  (∀ env reqBody w,
     statuses_ok (orders w) = true →
     statuses_ok (orders (post_orders env reqBody w).2) = true) ∧
  (∀ env id status w,
     statuses_ok (orders w) = true →
     statuses_ok (orders (patch_order env id status w).2) = true) ∧
  (∀ os o, statuses_ok os = true → o ∈ os →
           Order.status o = "PENDING" ∨ Order.status o = "COMPLETED" ∨
           Order.status o = "CANCELLED").
Proof.
  split; [reflexivity|]. split; [|split].
  - intros env reqBody w Hw.
    destruct (post_orders env reqBody w) as [r w'] eqn:Hrun. simpl.
    apply post_orders_inv in Hrun
      as [(msg & _ & Hsame)|[(_ & _ & Ho)|(items & lines & _ & _ & _ & _ & Ho & _)]].
    + by rewrite (same_data_orders _ _ Hsame).
    + by rewrite Ho.
    + rewrite Ho. unfold statuses_ok in *. by rewrite forallb_app, Hw.
  - intros env id status w Hw.
    destruct (patch_order env id status w) as [r w'] eqn:Hrun. simpl.
    apply patch_order_inv in Hrun
      as (_ & _ & [(_ & _ & ->)|[(_ & _ & Ho)|[(_ & _ & Ho & _)|(Hv & o & _ & _ & Ho & _)]]]);
      rewrite ?Ho; try done.
    apply forallb_update_first; [|done]. intros o' _. simpl.
    by apply invalid_status_false.
  - intros os o Hos Ho. unfold statuses_ok in Hos. rewrite forallb_forall in Hos.
    apply list_elem_of_In in Ho. specialize (Hos o Ho). unfold includes in Hos. simpl in Hos.
    rewrite !orb_true_iff, !String.eqb_eq in Hos.
    destruct Hos as [?|[?|[?|?]]]; auto; discriminate.
Qed.

(** The shop after its first order, and a status update on it. *)
Lemma stored_statuses_are_allowed_witness :
  statuses_ok (orders (patch_order env2 o1 (Some "completed") shop_after_order).2) = true.
Proof.
  destruct stored_statuses_are_allowed as (_ & _ & H & _).
  apply (H env2 o1 (Some "completed") shop_after_order). reflexivity.
Defined.

Lemma Forall_update_first (Q : Order.t → Prop) id f os :
  (∀ o, Q o → Q (f o)) → Forall Q os → Forall Q (update_first id f os).
Proof.
  intros Hf. induction 1 as [|x os Hx Hos IH]; simpl; [constructor|].
  destruct (String.eqb (Order._id x) id); constructor; auto.
Qed.

Lemma order_of_totals env lines :
  order_valid (order_of env lines) = true → totals_ok [order_of env lines].
Proof.
  unfold order_valid, totals_ok. simpl.
  intros [Hne _]%andb_true_iff.
  constructor; [|constructor]. simpl. split; [|reflexivity].
  intros ->. discriminate.
Qed.

(** X13. Every stored order has at least one line, and its [totalAmount]
    is what the loop of the handler computes over its stored lines: price
    times quantity, added line after line from 0, in the order of the
    lines.  This holds of the empty collection and is kept by every
    place-order request and every status update, whatever they are
    answered. *)
Theorem stored_totals_are_consistent :
  totals_ok [] ∧
  (∀ env reqBody w,
     totals_ok (orders w) →
     totals_ok (orders (post_orders env reqBody w).2)) ∧
  (∀ env id status w,
     totals_ok (orders w) →
     totals_ok (orders (patch_order env id status w).2)) ∧
  (∀ os o, totals_ok os → o ∈ os →
           Order.items o ≠ [] ∧
           Order.totalAmount o =
             fold_left (fun total l => (total + OrderItem.price l * OrderItem.quantity l)%Q)
                       (Order.items o) 0%Q).
Proof.
  split; [constructor|]. split; [|split].
  - intros env reqBody w Hw.
    destruct (post_orders env reqBody w) as [r w'] eqn:Hrun. simpl.
    apply post_orders_inv in Hrun
      as [(msg & _ & Hsame)|[(_ & _ & Ho)|(items & lines & _ & _ & _ & Hv & Ho & _)]].
    + by rewrite (same_data_orders _ _ Hsame).
    + by rewrite Ho.
    + rewrite Ho. apply Forall_app. split; [done|]. by apply order_of_totals.
  - intros env id status w Hw.
    destruct (patch_order env id status w) as [r w'] eqn:Hrun. simpl.
    apply patch_order_inv in Hrun
      as (_ & _ & [(_ & _ & ->)|[(_ & _ & Ho)|[(_ & _ & Ho & _)|(_ & o & _ & _ & Ho & _)]]]);
      rewrite ?Ho; try done.
    by apply Forall_update_first.
  - intros os o Hos Ho. unfold totals_ok in Hos. rewrite Forall_forall in Hos.
    exact (Hos o Ho).
Qed.

(** A second order in the shop, for one and a half widgets. *)
Lemma stored_totals_are_consistent_witness :
  totals_ok (orders (post_orders env2 (request [entry P (3 # 2)]) shop_after_order).2).
Proof.
  destruct stored_totals_are_consistent as (_ & H & _).
  apply (H env2 (request [entry P (3 # 2)]) shop_after_order).
  constructor; [|constructor]. split; [discriminate|reflexivity].
Defined.

Lemma update_first_idemp id f os :
  (∀ o, Order._id (f o) = Order._id o) → (∀ o, f (f o) = f o) →
  update_first id f (update_first id f os) = update_first id f os.
Proof.
  intros Hid Hf. induction os as [|x os IH]; simpl; [done|].
  destruct (String.eqb (Order._id x) id) eqn:E; simpl.
  - by rewrite Hid, E, Hf.
  - by rewrite E, IH.
Qed.

(** X14. A status update can be repeated: when an update was answered 200,
    sending the same update again (at the same time of the clock) leaves
    the orders as the first one left them, and, the database answering,
    is answered with the same 200 and the same record. *)
Theorem update_status_is_idempotent env id status w o :
  (patch_order env id status w).1 = Normal (json 200 (OrderBody o)) →
  orders (patch_order env id status (patch_order env id status w).2).2 =
    orders (patch_order env id status w).2 ∧
  (db_ok_for 1 (patch_order env id status w).2 = true →
   (patch_order env id status (patch_order env id status w).2).1 =
     Normal (json 200 (OrderBody o))).
Proof.
  destruct (patch_order env id status w) as [r w1] eqn:Hrun1. simpl. intros ->.
  apply patch_order_inv in Hrun1
    as (_ & _ & [(_ & [=] & _)|[(_ & [=] & _)|[(_ & [=] & _)|(Hv & o0 & Hf & [= ->] & Ho1 & Hoid)]]]).
  assert (Hf1 : Order_find id (orders w1) =
                Some (set_status env (toUpperCase (default "" status)) o0))
    by (rewrite Ho1; by apply Order_find_update_first).
  split.
  - destruct (patch_order env id status w1) as [r2 w2] eqn:Hrun2. simpl.
    apply patch_order_inv in Hrun2
      as (_ & _ & [(_ & _ & ->)|[(_ & _ & Ho)|[(_ & _ & Ho & _)|(_ & o' & _ & _ & Ho & _)]]]);
      try done.
    rewrite Ho, Ho1. by apply update_first_idemp.
  - intros Hdb. unfold patch_order. rewrite Hv.
    unfold Order_findByIdAndUpdate. unfold_m. rewrite Hoid, (db_call_ok _ Hdb). simpl.
    by rewrite Hf1.
Qed.

(** The first order of the shop, set to [completed] twice. *)
Lemma update_status_is_idempotent_witness :
  orders (patch_order env2 o1 (Some "completed")
            (patch_order env2 o1 (Some "completed") shop_after_order).2).2 =
    orders (patch_order env2 o1 (Some "completed") shop_after_order).2 ∧
  (db_ok_for 1 (patch_order env2 o1 (Some "completed") shop_after_order).2 = true →
   (patch_order env2 o1 (Some "completed")
      (patch_order env2 o1 (Some "completed") shop_after_order).2).1 =
     Normal (json 200 (OrderBody (set_status env2 "COMPLETED" first_order)))).
Proof.
  apply (update_status_is_idempotent env2 o1 (Some "completed") shop_after_order
           (set_status env2 "COMPLETED" first_order)).
  reflexivity.
Defined.

(** ** Starting the Service Bus *)

(** X15. Start-up of the Service Bus never throws.  With a connection
    string and a queue name, both non-empty, and an SDK that accepts them,
    the sender exists afterwards and is the one of that queue; the next
    publish call, on a bus that takes the message, puts exactly the
    message of the order into the queue.  When the SDK rejects the
    settings, the sender is as it was and the failure is written to the
    console. *)
Theorem service_bus_start env order w conn queue :
  conn ≠ "" → queue ≠ "" →
  (initServiceBus (Some conn) (Some queue) false w).1 = Normal tt ∧
  sbSender (initServiceBus (Some conn) (Some queue) false w).2 =
    Some {| queueName := queue |} ∧
  (head (sbFaults w) ≠ Some true →
   sent (sendOrderCreatedMessage env order
           (initServiceBus (Some conn) (Some queue) false w).2).2 =
     sent w ++ [payload_of env order]) ∧
  (initServiceBus (Some conn) (Some queue) true w).1 = Normal tt ∧
  sbSender (initServiceBus (Some conn) (Some queue) true w).2 = sbSender w ∧
  (∃ message,
     console (initServiceBus (Some conn) (Some queue) true w).2 =
       console w ++ [(ERROR, ["[ServiceBus] Failed to initialize:"; message])]).
Proof.
  intros Hconn Hqueue. unfold initServiceBus.
  rewrite (falsy_string_false _ Hconn), (falsy_string_false _ Hqueue). simpl.
  unfold_m. simpl. split; [done|]. split; [done|]. split; [|eauto].
  intros Hhead. unfold sendOrderCreatedMessage, sendMessages. unfold_m. simpl.
  destruct (sbFaults w) as [|[] fs]; simpl in *; congruence.
Qed.

(** The shop, started with a connection string and the queue [orders]. *)
Lemma service_bus_start_witness :
  sbSender (initServiceBus (Some "Endpoint=sb://shop/") (Some "orders") false shop).2 =
    Some {| queueName := "orders" |}.
Proof.
  destruct (service_bus_start env1 first_order shop "Endpoint=sb://shop/" "orders")
    as (_ & H & _).
  - discriminate.
  - discriminate.
  - exact H.
Defined.

(** ** Placing an order: where the validation stops *)


